(** * Karma tracker analytics: state normalization and the STP bridge

    A shallow embedding of [routes/normalization.py] and
    [utils/stp_bridge.py].  Python values are an inductive type over
    stdpp's finite maps, Python floats are binary64 primitive floats, and
    the effects of the code (identifier generation, the clock, the weights
    file, the HTTP endpoint, the event collection) are threaded through a
    state-and-exception monad over an explicit [World]. *)

From Stdlib Require Import ZArith Floats.
From stdpp Require Import gmap strings list fin_maps pretty.

Set Warnings "-inexact-float,-register-all".

(* ===================================================================== *)
(** ** Python values and exceptions                                        *)
(* ===================================================================== *)

(** [datetime.utcnow()] yields a datetime object; the code only ever takes
    its [isoformat()] or stores it, so a datetime is represented by its
    ISO-8601 rendering. *)
Record datetime := Datetime { isoformat : string }.

(** The values that flow through the two files: JSON documents read by
    [json.load] and [response.json()], and the dictionaries the code
    builds. *)
Inductive value : Type :=
  | VNone
  | VBool (b : bool)
  | VInt (z : Z)
  | VFloat (x : float)
  | VStr (s : string)
  | VDatetime (t : datetime)
  | VList (l : list value)
  | VDict (d : gmap string value).

(** The exceptions that can be in flight.  [RequestException] stands for
    whatever [requests.post] raises (connection error, timeout, ...),
    [JSONDecodeError] for what [response.json()] and [json.load] raise,
    [OSError] for a failed [open], [PyMongoError] for a failed write. *)
Inductive exn : Type :=
  | Exception_ (msg : string)
  | TypeError (msg : string)
  | AttributeError (msg : string)
  | KeyError (msg : string)
  | OverflowError (msg : string)
  | OSError (msg : string)
  | JSONDecodeError (msg : string)
  | RequestException (msg : string)
  | PyMongoError (msg : string)
  | HTTPException (status_code : Z) (detail : string).

(** [str(e)].  A builtin exception built from one message prints that
    message; [HTTPException.__str__] prints the status code and the
    detail. *)
Definition str (e : exn) : string :=
  match e with
  | Exception_ msg | TypeError msg | AttributeError msg | KeyError msg
  | OverflowError msg | OSError msg | JSONDecodeError msg
  | RequestException msg | PyMongoError msg => msg
  | HTTPException status_code detail => pretty status_code +:+ ": " +:+ detail
  end.

(** Result of running a piece of Python: a value, or an exception. *)
Inductive outcome (A : Type) : Type :=
  | Return (a : A)
  | Raise (e : exn).
Arguments Return {A} a.
Arguments Raise {A} e.

(* ===================================================================== *)
(** ** The world outside the two files                                     *)
(* ===================================================================== *)

(** What [open("context_weights.json")] followed by [json.load] gives. *)
Inductive FileRead : Type :=
  | ReadFails (e : exn)
  | ReadJson (j : value).

(** An HTTP response as the code observes it: [status_code], [content],
    what [json()] does (the parsed document, or the error it raises) and
    [elapsed.total_seconds()]. *)
Record Response := {
  status_code : Z;
  content : string;
  json : outcome value;
  elapsed_total_seconds : float
}.

(** What one [requests.post] call does: raise, or hand back a response. *)
Inductive HttpOutcome : Type :=
  | NetworkError (e : exn)
  | Responded (r : Response).

(** One [requests.post(url, json=..., timeout=...)] call. *)
Record PostCall := {
  post_url : string;
  post_json : value;
  post_timeout : Z
}.

(** The world.  The [_src] fields are what the environment will answer
    (the [i]-th identifier, the [i]-th clock reading, the outcome of the
    [i]-th POST, the fate of the [i]-th insert); the other fields are
    the state the code changes: how much of each source has been consumed,
    the POST calls issued so far and the documents stored so far (oldest
    first). *)
Record World := {
  uuid4_src : nat → string;
  uuid4_calls : nat;
  utcnow_src : nat → datetime;
  utcnow_calls : nat;
  context_weights_file : FileRead;
  endpoint_src : nat → HttpOutcome;
  posts : list PostCall;
  insert_src : nat → option exn;
  insert_calls : nat;
  karma_events_col : list (gmap string value)
}.

(* ===================================================================== *)
(** ** State and exceptions                                                *)
(* ===================================================================== *)

Definition Py (A : Type) : Type := World → outcome A * World.

#[global] Instance Py_ret : MRet Py := λ A a w, (Return a, w).

#[global] Instance Py_bind : MBind Py := λ A B f m w,
  match m w with
  | (Return a, w') => f a w'
  | (Raise e, w') => (Raise e, w')
  end.

Definition raise {A} (e : exn) : Py A := λ w, (Raise e, w).

(** [try: body  except Exception as e: handler e]; the effects of the body
    up to the exception persist. *)
Definition try_except {A} (body : Py A) (handler : exn → Py A) : Py A := λ w,
  match body w with
  | (Return a, w') => (Return a, w')
  | (Raise e, w') => handler e w'
  end.

(** [for x in xs: body x] *)
Fixpoint for_each {A} (xs : list A) (body : A → Py unit) : Py unit :=
  match xs with
  | [] => mret tt
  | x :: rest => body x ;; for_each rest body
  end.

(** [str(uuid.uuid4())] *)
Definition uuid4_str : Py string := λ w,
  (Return (uuid4_src w (uuid4_calls w)),
   {| uuid4_src := uuid4_src w; uuid4_calls := S (uuid4_calls w);
      utcnow_src := utcnow_src w; utcnow_calls := utcnow_calls w;
      context_weights_file := context_weights_file w;
      endpoint_src := endpoint_src w; posts := posts w;
      insert_src := insert_src w; insert_calls := insert_calls w;
      karma_events_col := karma_events_col w |}).

(** [datetime.utcnow()] *)
Definition utcnow : Py datetime := λ w,
  (Return (utcnow_src w (utcnow_calls w)),
   {| uuid4_src := uuid4_src w; uuid4_calls := uuid4_calls w;
      utcnow_src := utcnow_src w; utcnow_calls := S (utcnow_calls w);
      context_weights_file := context_weights_file w;
      endpoint_src := endpoint_src w; posts := posts w;
      insert_src := insert_src w; insert_calls := insert_calls w;
      karma_events_col := karma_events_col w |}).

(** [with open(path) as f: json.load(f)] *)
Definition json_load_file : Py value := λ w,
  match context_weights_file w with
  | ReadFails e => (Raise e, w)
  | ReadJson j => (Return j, w)
  end.

(** The world after one more POST call has gone out. *)
Definition log_post (call : PostCall) (w : World) : World :=
  {| uuid4_src := uuid4_src w; uuid4_calls := uuid4_calls w;
     utcnow_src := utcnow_src w; utcnow_calls := utcnow_calls w;
     context_weights_file := context_weights_file w;
     endpoint_src := endpoint_src w; posts := posts w ++ [call];
     insert_src := insert_src w; insert_calls := insert_calls w;
     karma_events_col := karma_events_col w |}.

(** [requests.post(url, json=payload, timeout=timeout)]: the call goes out
    and the environment decides what comes back. *)
Definition requests_post (url : string) (payload : value) (timeout : Z)
    : Py Response := λ w,
  let w' := log_post {| post_url := url; post_json := payload;
                        post_timeout := timeout |} w in
  match endpoint_src w (length (posts w)) with
  | NetworkError e => (Raise e, w')
  | Responded r => (Return r, w')
  end.

(** [karma_events_col.insert_one(doc)] *)
Definition insert_one (doc : gmap string value) : Py unit := λ w,
  let stored (col : list (gmap string value)) :=
    {| uuid4_src := uuid4_src w; uuid4_calls := uuid4_calls w;
       utcnow_src := utcnow_src w; utcnow_calls := utcnow_calls w;
       context_weights_file := context_weights_file w;
       endpoint_src := endpoint_src w; posts := posts w;
       insert_src := insert_src w; insert_calls := S (insert_calls w);
       karma_events_col := col |} in
  match insert_src w (insert_calls w) with
  | Some e => (Raise e, stored (karma_events_col w))
  | None => (Return tt, stored (karma_events_col w ++ [doc]))
  end.

(** [obj.get(key, default)]: only a dict has [get]. *)
Definition py_get (obj : value) (key : string) (dflt : value) : Py value :=
  match obj with
  | VDict d => mret (default dflt (d !! key))
  | _ => raise (AttributeError "object has no attribute 'get'")
  end.

(** [d[key]] on a dict. *)
Definition py_getitem (d : gmap string value) (key : string) : Py value :=
  match d !! key with
  | Some v => mret v
  | None => raise (KeyError key)
  end.

(** Conversion of a Python int to a float: round to nearest, ties to
    even. *)
Definition float_of_Z (z : Z) : float :=
  SF2Prim (binary_normalize prec emax z 0 false).

(** The float a numeric Python object stands for where a float is wanted
    (the right operand of [float * _], a pydantic [float] field): a float
    is itself, an int is converted ([OverflowError] when it is too large),
    a bool counts as the int 0 or 1; nothing else is a number. *)
Definition to_float (v : value) : Py float :=
  match v with
  | VFloat x => mret x
  | VInt z =>
      if is_infinity (float_of_Z z)
      then raise (OverflowError "int too large to convert to float")
      else mret (float_of_Z z)
  | VBool b => mret (if b then 1%float else 0%float)
  | _ => raise (TypeError "unsupported operand type(s) for *")
  end.

(** [x * v] for a float [x]. *)
Definition float_mul (x : float) (v : value) : Py float :=
  y ← to_float v; mret (x * y)%float.

(* ===================================================================== *)
(** ** routes/normalization.py                                             *)
(* ===================================================================== *)

Module normalization.

(** Schema for a normalized behavioral state. *)
Record StateSchema := {
  state_id : string;
  module : string;
  action_type : string;
  weight : float;
  feedback_value : float;
  timestamp : string
}.

(** Request model for state normalization (its [module] and [action_type]
    are [rq_module] and [rq_action_type] here). *)
Record NormalizeStateRequest := {
  rq_module : string;
  rq_action_type : string;
  raw_value : float;
  context : option (gmap string value);
  metadata : option (gmap string value)
}.

(** Request model for batch state normalization. *)
Record NormalizeStateBatchRequest := {
  states : list NormalizeStateRequest
}.

(** An [Optional[Dict]] field as a Python value. *)
Definition optional_dict (o : option (gmap string value)) : value :=
  match o with
  | Some d => VDict d
  | None => VNone
  end.

Definition load_context_weights : Py value :=
  try_except json_load_file
    (λ _, mret (VDict {[
       "default_behavior_weights" := VDict {[
          "finance" := VFloat 1.0;
          "game" := VFloat 1.2;
          "gurukul" := VFloat 1.3;
          "insight" := VFloat 1.1 ]} ]})).

Definition normalize_single_state (request : NormalizeStateRequest)
    : Py StateSchema :=
  state_id ← uuid4_str;
  weights ← load_context_weights;
  behavior_weights ← py_get weights "default_behavior_weights" (VDict ∅);
  module_weight ← py_get behavior_weights (rq_module request) (VFloat 1.0);
  normalized_value ← float_mul (raw_value request) module_weight;
  now ← utcnow;
  (* StateSchema(...): the [weight] field is validated as a float *)
  weight ← to_float module_weight;
  mret {| state_id := state_id;
          module := rq_module request;
          action_type := rq_action_type request;
          weight := weight;
          feedback_value := normalized_value;
          timestamp := isoformat now |}.

Definition normalize_state (request : NormalizeStateRequest)
    : Py StateSchema :=
  try_except
    (normalized_state ← normalize_single_state request;
     created_at ← utcnow;
     let event_record : gmap string value := {[
       "event_id" := VStr (state_id normalized_state);
       "event_type" := VStr "normalized_state";
       "data" := VDict {[
          "module" := VStr (module normalized_state);
          "action_type" := VStr (action_type normalized_state);
          "raw_value" := VFloat (raw_value request);
          "normalized_value" := VFloat (feedback_value normalized_state);
          "weight" := VFloat (weight normalized_state);
          "context" := optional_dict (context request);
          "metadata" := optional_dict (metadata request) ]};
       "timestamp" := VStr (timestamp normalized_state);
       "source" := VStr ("normalization_api_" +:+ module normalized_state);
       "status" := VStr "processed";
       "created_at" := VDatetime created_at ]} in
     insert_one event_record;;
     mret normalized_state)
    (λ e, raise (HTTPException 500 ("Error normalizing state: " +:+ str e))).

(** The first loop of [normalize_state_batch]: normalize each state and
    append it to [normalized_states]. *)
Fixpoint normalize_each (requests : list NormalizeStateRequest)
    : Py (list StateSchema) :=
  match requests with
  | [] => mret []
  | state_request :: rest =>
      normalized_state ← normalize_single_state state_request;
      normalized_states ← normalize_each rest;
      mret (normalized_state :: normalized_states)
  end.

(** [next((req for req in request.states
           if req.action_type == normalized_state.action_type), None)] *)
Definition find_original_request (request : NormalizeStateBatchRequest)
    (normalized_state : StateSchema) : option NormalizeStateRequest :=
  List.find
    (λ req, bool_decide (rq_action_type req = action_type normalized_state))
    (states request).

(** The body of the second loop: build the event record of one normalized
    state and insert it. *)
Definition log_normalized_state (request : NormalizeStateBatchRequest)
    (normalized_state : StateSchema) : Py unit :=
  let original_request := find_original_request request normalized_state in
  created_at ← utcnow;
  let event_record : gmap string value := {[
    "event_id" := VStr (state_id normalized_state);
    "event_type" := VStr "normalized_state";
    "data" := VDict {[
       "module" := VStr (module normalized_state);
       "action_type" := VStr (action_type normalized_state);
       "raw_value" :=
         match original_request with
         | Some req => VFloat (raw_value req)
         | None => VNone
         end;
       "normalized_value" := VFloat (feedback_value normalized_state);
       "weight" := VFloat (weight normalized_state);
       "context" :=
         match original_request with
         | Some req => optional_dict (context req)
         | None => VNone
         end;
       "metadata" :=
         match original_request with
         | Some req => optional_dict (metadata req)
         | None => VNone
         end ]};
    "timestamp" := VStr (timestamp normalized_state);
    "source" := VStr ("normalization_api_" +:+ module normalized_state);
    "status" := VStr "processed";
    "created_at" := VDatetime created_at ]} in
  insert_one event_record.

Definition normalize_state_batch (request : NormalizeStateBatchRequest)
    : Py (list StateSchema) :=
  try_except
    (normalized_states ← normalize_each (states request);
     for_each normalized_states (log_normalized_state request);;
     mret normalized_states)
    (λ e, raise (HTTPException 500
                   ("Error normalizing batch states: " +:+ str e))).

End normalization.

(* ===================================================================== *)
(** ** utils/stp_bridge.py                                                 *)
(* ===================================================================== *)

Module stp_bridge.

(** The [config] dictionary handed to the constructor: each key may be
    missing. *)
Record Config := {
  cfg_insightflow_endpoint : option string;
  cfg_retry_attempts : option Z;
  cfg_timeout : option Z;
  cfg_enabled : option bool
}.

Definition empty_config : Config :=
  {| cfg_insightflow_endpoint := None; cfg_retry_attempts := None;
     cfg_timeout := None; cfg_enabled := None |}.

(** STP (Signal Transmission Protocol) bridge for forwarding signals to
    InsightFlow. *)
Record STPBridge := {
  insightflow_endpoint : string;
  retry_attempts : Z;
  timeout : Z;
  enabled : bool
}.

(** [STPBridge.__init__] *)
Definition init (config : option Config) : STPBridge :=
  let config := default empty_config config in
  {| insightflow_endpoint :=
       default "http://localhost:8001/api/v1/insightflow/receive"
               (cfg_insightflow_endpoint config);
     retry_attempts := default 3%Z (cfg_retry_attempts config);
     timeout := default 10%Z (cfg_timeout config);
     enabled := default true (cfg_enabled config) |}.

(** [response.json()] *)
Definition response_json (response : Response) : Py value := λ w,
  (json response, w).

(** [code in [200, 201]] *)
Definition is_success_code (code : Z) : bool :=
  bool_decide (code ∈ [200%Z; 201%Z]).

(** One pass through the body of the retry loop.  It either leaves the
    function with the value to return ([inl]) or falls through to the next
    iteration with a new [last_exception] ([inr]). *)
Definition send_attempt (self : STPBridge) (payload : gmap string value)
    (attempt : Z) : Py (value + exn) :=
  try_except
    (response ← requests_post (insightflow_endpoint self) (VDict payload)
                              (timeout self);
     response_data ←
       match content response with
       | String _ _ => response_json response
       | EmptyString => mret (VDict ∅)
       end;
     if is_success_code (status_code response)
     then mret (inl (VDict {[
            "status_code" := VInt (status_code response);
            "response" := response_data;
            "attempt" := VInt (attempt + 1) ]}))
     else mret (inr (HTTPException (status_code response)
                  ("InsightFlow returned status "
                     +:+ pretty (status_code response)))))
    (λ e, mret (inr e)).

(** [for attempt in attempts: ...] followed by [raise last_exception]. *)
Fixpoint retry_loop (self : STPBridge) (payload : gmap string value)
    (attempts : list Z) (last_exception : exn) : Py value :=
  match attempts with
  | [] => raise last_exception
  | attempt :: rest =>
      r ← send_attempt self payload attempt;
      match r with
      | inl result => mret result
      | inr e => retry_loop self payload rest e
      end
  end.

Definition _send_with_retry (self : STPBridge) (payload : gmap string value)
    : Py value :=
  retry_loop self payload (seqZ 0 (retry_attempts self))
             (Exception_ "Unknown error").

Definition forward_signal (self : STPBridge) (signal : gmap string value)
    : Py (gmap string value) :=
  if negb (enabled self) then
    now ← utcnow;
    mret {[ "status" := VStr "skipped";
            "message" := VStr "STP bridge is disabled";
            "timestamp" := VStr (isoformat now) ]}
  else
    (* the default of [signal.get] is evaluated whether or not it is used *)
    fresh ← uuid4_str;
    let signal_id := default (VStr fresh) (signal !! "signal_id") in
    try_except
      (transmission_id ← uuid4_str;
       now ← utcnow;
       let payload : gmap string value := {[
         "transmission_id" := VStr transmission_id;
         "source" := VStr "karmachain_feedback_engine";
         "signal" := VDict signal;
         "timestamp" := VStr (isoformat now) ]} in
       response ← _send_with_retry self payload;
       sent_id ← py_getitem payload "transmission_id";
       now ← utcnow;
       mret {[ "status" := VStr "success";
               "signal_id" := signal_id;
               "transmission_id" := sent_id;
               "response" := response;
               "timestamp" := VStr (isoformat now) ]})
      (λ e,
       now ← utcnow;
       mret {[ "status" := VStr "error";
               "signal_id" := signal_id;
               "error" := VStr (str e);
               "timestamp" := VStr (isoformat now) ]}).

Fixpoint batch_forward_signals (self : STPBridge)
    (signals : list (gmap string value)) : Py (list (gmap string value)) :=
  match signals with
  | [] => mret []
  | signal :: rest =>
      result ← forward_signal self signal;
      results ← batch_forward_signals self rest;
      mret (result :: results)
  end.

Definition health_check (self : STPBridge) : Py (gmap string value) :=
  try_except
    (transmission_id ← uuid4_str;
     now ← utcnow;
     let health_payload : gmap string value := {[
       "transmission_id" := VStr transmission_id;
       "source" := VStr "karmachain_feedback_engine";
       "type" := VStr "health_check";
       "timestamp" := VStr (isoformat now) ]} in
     response ← requests_post (insightflow_endpoint self)
                              (VDict health_payload) (timeout self);
     now ← utcnow;
     mret {[ "status" := VStr (if is_success_code (status_code response)
                               then "healthy" else "unhealthy");
             "endpoint" := VStr (insightflow_endpoint self);
             "status_code" := VInt (status_code response);
             "response_time" := VFloat (elapsed_total_seconds response);
             "timestamp" := VStr (isoformat now) ]})
    (λ e,
     now ← utcnow;
     mret {[ "status" := VStr "unhealthy";
             "endpoint" := VStr (insightflow_endpoint self);
             "error" := VStr (str e);
             "timestamp" := VStr (isoformat now) ]}).

(** The global instance and the convenience functions. *)
Definition stp_bridge : STPBridge := init None.

Definition forward_karmic_signal (signal : gmap string value)
    : Py (gmap string value) :=
  forward_signal stp_bridge signal.

Definition batch_forward_karmic_signals (signals : list (gmap string value))
    : Py (list (gmap string value)) :=
  batch_forward_signals stp_bridge signals.

Definition check_stp_bridge_health : Py (gmap string value) :=
  health_check stp_bridge.

End stp_bridge.

(* ===================================================================== *)
(** ** Vocabulary of the properties                                        *)
(* ===================================================================== *)

(** The documented fallback mapping. *)
Definition default_behavior_weights : gmap string float :=
  {[ "finance" := 1.0%float; "game" := 1.2%float;
     "gurukul" := 1.3%float; "insight" := 1.1%float ]}.

(** A JSON number read as a float. *)
Definition number (v : value) : option float :=
  match v with
  | VFloat x => Some x
  | VInt z => if is_infinity (float_of_Z z) then None else Some (float_of_Z z)
  | _ => None
  end.

(** [weight_mapping src m]: the weight source [src] supplies the mapping
    [m] from module names to weights.  A source that fails to load supplies
    the documented defaults; a source that loads supplies the numbers under
    its ["default_behavior_weights"] key (no mapping at all when the key is
    missing). *)
Inductive weight_mapping : FileRead → gmap string float → Prop :=
  | weights_unavailable e :
      weight_mapping (ReadFails e) default_behavior_weights
  | weights_without_key top :
      top !! "default_behavior_weights" = None →
      weight_mapping (ReadJson (VDict top)) ∅
  | weights_loaded top d m :
      top !! "default_behavior_weights" = Some (VDict d) →
      number <$> d = Some <$> m →
      weight_mapping (ReadJson (VDict top)) m.

(** The world after [n] states have been normalized: [n] identifiers and
    [n] clock readings consumed. *)
Definition after_normalizing (n : nat) (w : World) : World :=
  {| uuid4_src := uuid4_src w; uuid4_calls := n + uuid4_calls w;
     utcnow_src := utcnow_src w; utcnow_calls := n + utcnow_calls w;
     context_weights_file := context_weights_file w;
     endpoint_src := endpoint_src w; posts := posts w;
     insert_src := insert_src w; insert_calls := insert_calls w;
     karma_events_col := karma_events_col w |}.

(** The state that normalizing [request] in world [w] yields when the
    weight source supplies [m]: its identifier and timestamp are the next
    ones of the world, its weight is the entry of the module, 1.0 when
    there is none. *)
Definition normalized (m : gmap string float) (w : World)
    (request : normalization.NormalizeStateRequest)
    : normalization.StateSchema :=
  {| normalization.state_id := uuid4_src w (uuid4_calls w);
     normalization.module := normalization.rq_module request;
     normalization.action_type := normalization.rq_action_type request;
     normalization.weight :=
       default 1.0%float (m !! normalization.rq_module request);
     normalization.feedback_value :=
       (normalization.raw_value request
        * default 1.0 (m !! normalization.rq_module request))%float;
     normalization.timestamp := isoformat (utcnow_src w (utcnow_calls w)) |}.

(** The states of a sequence of requests, each normalized in the world its
    predecessors leave. *)
Fixpoint normalized_from (m : gmap string float) (w : World)
    (requests : list normalization.NormalizeStateRequest)
    : list normalization.StateSchema :=
  match requests with
  | [] => []
  | request :: rest =>
      normalized m w request :: normalized_from m (after_normalizing 1 w) rest
  end.

(** The event record that [normalize_state_batch] writes for a normalized
    state at time [created_at]. *)
Definition batch_event_record
    (request : normalization.NormalizeStateBatchRequest)
    (normalized_state : normalization.StateSchema) (created_at : datetime)
    : gmap string value :=
  let original_request :=
    normalization.find_original_request request normalized_state in
  {[ "event_id" := VStr (normalization.state_id normalized_state);
     "event_type" := VStr "normalized_state";
     "data" := VDict {[
        "module" := VStr (normalization.module normalized_state);
        "action_type" := VStr (normalization.action_type normalized_state);
        "raw_value" :=
          match original_request with
          | Some req => VFloat (normalization.raw_value req)
          | None => VNone
          end;
        "normalized_value" :=
          VFloat (normalization.feedback_value normalized_state);
        "weight" := VFloat (normalization.weight normalized_state);
        "context" :=
          match original_request with
          | Some req => normalization.optional_dict (normalization.context req)
          | None => VNone
          end;
        "metadata" :=
          match original_request with
          | Some req => normalization.optional_dict (normalization.metadata req)
          | None => VNone
          end ]};
     "timestamp" := VStr (normalization.timestamp normalized_state);
     "source" :=
       VStr ("normalization_api_" +:+ normalization.module normalized_state);
     "status" := VStr "processed";
     "created_at" := VDatetime created_at ]}.

(** The world after [n] more POST calls, all of them [call]. *)
Definition after_posts (n : nat) (call : PostCall) (w : World) : World :=
  {| uuid4_src := uuid4_src w; uuid4_calls := uuid4_calls w;
     utcnow_src := utcnow_src w; utcnow_calls := utcnow_calls w;
     context_weights_file := context_weights_file w;
     endpoint_src := endpoint_src w; posts := posts w ++ replicate n call;
     insert_src := insert_src w; insert_calls := insert_calls w;
     karma_events_col := karma_events_col w |}.

(** The [k]-th POST (counting from 1) that goes out from world [w] on. *)
Definition nth_attempt (w : World) (k : nat) : HttpOutcome :=
  endpoint_src w (length (posts w) + pred k).

(** The attempt came back with status code 200 or 201. *)
Definition returns_success_code (o : HttpOutcome) : bool :=
  match o with
  | NetworkError _ => false
  | Responded r => stp_bridge.is_success_code (status_code r)
  end.

(** The body of a response, parsed: an empty body is the empty mapping, a
    body that is not JSON has no parse. *)
Definition parsed_body (r : Response) : option value :=
  match content r with
  | EmptyString => Some (VDict ∅)
  | String _ _ => match json r with
                  | Return v => Some v
                  | Raise _ => None
                  end
  end.

(** The failure an attempt leaves behind as the last failure: the network
    error, or the parse error of the body, or else the report of a status
    code other than 200 and 201; nothing for an attempt that succeeds. *)
Definition recorded_failure (o : HttpOutcome) : option exn :=
  match o with
  | NetworkError e => Some e
  | Responded r =>
      match content r, json r with
      | String _ _, Raise e => Some e
      | _, _ =>
          if stp_bridge.is_success_code (status_code r) then None
          else Some (HTTPException (status_code r)
                       ("InsightFlow returned status "
                          +:+ pretty (status_code r)))
      end
  end.

(** The POST call that carries [payload] for bridge [self]. *)
Definition post_of (self : stp_bridge.STPBridge) (payload : gmap string value)
    : PostCall :=
  {| post_url := stp_bridge.insightflow_endpoint self;
     post_json := VDict payload;
     post_timeout := stp_bridge.timeout self |}.

(** The world in which [forward_signal] starts sending: two identifiers
    (the fresh signal id and the transmission id) and one clock reading
    have been taken from [w]. *)
Definition sending_world (w : World) : World :=
  {| uuid4_src := uuid4_src w; uuid4_calls := S (S (uuid4_calls w));
     utcnow_src := utcnow_src w; utcnow_calls := S (utcnow_calls w);
     context_weights_file := context_weights_file w;
     endpoint_src := endpoint_src w; posts := posts w;
     insert_src := insert_src w; insert_calls := insert_calls w;
     karma_events_col := karma_events_col w |}.

(** The transmission payload [forward_signal] builds for [signal] when
    called in world [w]. *)
Definition transmission_payload (signal : gmap string value) (w : World)
    : gmap string value :=
  {[ "transmission_id" := VStr (uuid4_src w (S (uuid4_calls w)));
     "source" := VStr "karmachain_feedback_engine";
     "signal" := VDict signal;
     "timestamp" := VStr (isoformat (utcnow_src w (utcnow_calls w))) ]}.

(** The [signal_id] that [forward_signal] reports for [signal] when called
    in world [w]: the signal's own, else a fresh identifier. *)
Definition reported_signal_id (signal : gmap string value) (w : World)
    : value :=
  default (VStr (uuid4_src w (uuid4_calls w))) (signal !! "signal_id").

(** [w'] has the stores of [w]: the same event collection and insert
    count, the same POST log, the same weights file. *)
Definition same_store (w w' : World) : Prop :=
  karma_events_col w' = karma_events_col w ∧
  insert_calls w' = insert_calls w ∧
  insert_src w' = insert_src w ∧
  posts w' = posts w ∧
  context_weights_file w' = context_weights_file w.

(** What one [forward_signal] call changes: [k] POST calls with the
    payload of the call go out; an enabled bridge takes two identifiers
    and two clock readings, a disabled one a single clock reading; the
    sources, the weights file and the event collection stay as they
    are. *)
Definition forward_effects (self : stp_bridge.STPBridge)
    (signal : gmap string value) (w w' : World) (k : nat) : Prop :=
  posts w'
  = posts w ++ replicate k (post_of self (transmission_payload signal w)) ∧
  uuid4_calls w'
  = (if stp_bridge.enabled self then 2 else 0) + uuid4_calls w ∧
  utcnow_calls w'
  = (if stp_bridge.enabled self then 2 else 1) + utcnow_calls w ∧
  uuid4_src w' = uuid4_src w ∧
  utcnow_src w' = utcnow_src w ∧
  endpoint_src w' = endpoint_src w ∧
  context_weights_file w' = context_weights_file w ∧
  insert_src w' = insert_src w ∧
  insert_calls w' = insert_calls w ∧
  karma_events_col w' = karma_events_col w.

(** The world after [n] signals have been forwarded by an enabled
    bridge, as far as identifiers and the clock go. *)
Definition after_forwarding (n : nat) (w : World) : World :=
  {| uuid4_src := uuid4_src w; uuid4_calls := 2 * n + uuid4_calls w;
     utcnow_src := utcnow_src w; utcnow_calls := 2 * n + utcnow_calls w;
     context_weights_file := context_weights_file w;
     endpoint_src := endpoint_src w; posts := posts w;
     insert_src := insert_src w; insert_calls := insert_calls w;
     karma_events_col := karma_events_col w |}.

(** The payloads an enabled bridge builds for a batch of signals, one per
    signal. *)
Definition batch_payloads (signals : list (gmap string value)) (w : World)
    : list (gmap string value) :=
  imap (λ i signal, transmission_payload signal (after_forwarding i w))
       signals.

(* ===================================================================== *)
(** ** Sample inputs                                                       *)
(* ===================================================================== *)

Module Samples.
Import normalization stp_bridge.

(** A world with fresh sources, a given weights file and endpoint, and an
    event collection that accepts every write. *)
Definition world (file : FileRead) (endpoint : nat → HttpOutcome) : World :=
  {| uuid4_src := λ i, "uuid-" +:+ pretty i; uuid4_calls := 0;
     utcnow_src := λ i, Datetime ("2024-01-01T00:00:0" +:+ pretty i);
     utcnow_calls := 0;
     context_weights_file := file;
     endpoint_src := endpoint; posts := [];
     insert_src := λ _, None; insert_calls := 0;
     karma_events_col := [] |}.

Definition no_file : FileRead :=
  ReadFails (OSError "No such file or directory: 'context_weights.json'").

Definition weights_file : FileRead :=
  ReadJson (VDict {[ "default_behavior_weights" :=
                       VDict {[ "finance" := VFloat 2.0; "game" := VInt 3 ]} ]}).

Definition weights_of_file : gmap string float :=
  {[ "finance" := 2.0%float; "game" := 3.0%float ]}.

Definition respond (code : Z) (body : string) (parse : outcome value)
    : HttpOutcome :=
  Responded {| status_code := code; content := body; json := parse;
               elapsed_total_seconds := 0.25 |}.

Definition not_json : outcome value :=
  Raise (JSONDecodeError "Expecting value: line 1 column 1 (char 0)").

(** An endpoint that always answers 500 with an empty body. *)
Definition always_500 : nat → HttpOutcome := λ _, respond 500 "" not_json.

(** An endpoint that fails twice (a 500, then a timeout) and then answers
    201 with a JSON body. *)
Definition fails_twice_then_201 : nat → HttpOutcome := λ i,
  match i with
  | 0 => respond 500 "" not_json
  | 1 => NetworkError (RequestException "Read timed out.")
  | _ => respond 201 "[true, 7]" (Return (VList [VBool true; VInt 7]))
  end.

(** An endpoint whose first answer is a 200 with a body that is not JSON,
    and that answers 500 from then on. *)
Definition html_200_then_500 : nat → HttpOutcome := λ i,
  match i with
  | 0 => respond 200 "<html>OK</html>" not_json
  | _ => respond 500 "" not_json
  end.

(** An endpoint that always answers 200 with an empty body. *)
Definition always_200 : nat → HttpOutcome := λ _, respond 200 "" not_json.

(** An endpoint that cannot be reached. *)
Definition unreachable : nat → HttpOutcome := λ _,
  NetworkError (RequestException "Connection refused").

Definition signal : gmap string value :=
  {[ "signal_id" := VStr "sig-1"; "karma" := VFloat 4.5 ]}.

Definition disabled_bridge : STPBridge :=
  init (Some {| cfg_insightflow_endpoint := None; cfg_retry_attempts := None;
                cfg_timeout := None; cfg_enabled := Some false |}).

Definition no_retry_bridge : STPBridge :=
  init (Some {| cfg_insightflow_endpoint := None;
                cfg_retry_attempts := Some 0%Z;
                cfg_timeout := None; cfg_enabled := None |}).

Definition request (module action : string) (raw : float)
    : NormalizeStateRequest :=
  {| rq_module := module; rq_action_type := action; raw_value := raw;
     context := None; metadata := None |}.

(** Two requests with the same [action_type] and different raw values. *)
Definition duplicate_actions : NormalizeStateBatchRequest :=
  {| states := [ request "finance" "donate" 1.0;
                 request "game" "donate" 2.0 ] |}.

(** Two requests with different action types. *)
Definition distinct_actions : NormalizeStateBatchRequest :=
  {| states := [ request "finance" "donate" 1.0;
                 request "game" "play" 2.0 ] |}.

(** A weights file in which the weight of [game] is not a number. *)
Definition text_weight_file : FileRead :=
  ReadJson (VDict {[ "default_behavior_weights" :=
                       VDict {[ "game" := VStr "high" ]} ]}).

(** A world like [world no_file unreachable], except that the event
    collection rejects the insert number [k] (counting from 0). *)
Definition rejecting_world (k : nat) : World :=
  {| uuid4_src := λ i, "uuid-" +:+ pretty i; uuid4_calls := 0;
     utcnow_src := λ i, Datetime ("2024-01-01T00:00:0" +:+ pretty i);
     utcnow_calls := 0;
     context_weights_file := no_file;
     endpoint_src := unreachable; posts := [];
     insert_src := λ i, if decide (i = k)
                        then Some (PyMongoError "not primary") else None;
     insert_calls := 0;
     karma_events_col := [] |}.

(** An endpoint that always answers 200 with a body that is not JSON. *)
Definition always_html_200 : nat → HttpOutcome := λ _,
  respond 200 "<html>OK</html>" not_json.

End Samples.

(* ===================================================================== *)
(** ** Properties of routes/normalization.py                               *)
(* ===================================================================== *)

Module normalization_facts.
Import normalization.

(** *** Reading a weight *)

Lemma to_float_number v x w :
  number v = Some x → to_float v w = (Return x, w).
Proof.
  destruct v; simpl; try discriminate.
  - destruct (is_infinity (float_of_Z z)); [discriminate|]. by intros [= <-].
  - by intros [= <-].
Qed.

Lemma weight_mapping_lookup (d : gmap string value) (m : gmap string float)
    (k : string) :
  number <$> d = Some <$> m →
  match d !! k with
  | Some v => ∃ x, number v = Some x ∧ m !! k = Some x
  | None => m !! k = None
  end.
Proof.
  intros Heq. assert (Hk := f_equal (.!! k) Heq). simpl in Hk.
  rewrite !lookup_fmap in Hk.
  destruct (d !! k) as [v|], (m !! k) as [x|]; simplify_eq/=; eauto.
Qed.

Lemma default_weights_numbers :
  number <$> ({[ "finance" := VFloat 1.0; "game" := VFloat 1.2;
                 "gurukul" := VFloat 1.3; "insight" := VFloat 1.1 ]}
              : gmap string value)
  = Some <$> default_behavior_weights.
Proof. vm_compute. reflexivity. Qed.

Lemma module_weight_run (d : gmap string value) (m : gmap string float) k w :
  number <$> d = Some <$> m →
  to_float (default (VFloat 1.0) (d !! k)) w
  = (Return (default 1.0%float (m !! k)), w).
Proof.
  intros Hnum. pose proof (weight_mapping_lookup d m k Hnum) as Hk.
  destruct (d !! k) as [v|].
  - destruct Hk as (x & Hv & ->). by apply to_float_number.
  - by rewrite Hk.
Qed.

(** Loading never fails, leaves the world alone, and what it returns holds
    under ["default_behavior_weights"] the mapping the source supplies. *)
Lemma load_context_weights_run w m :
  weight_mapping (context_weights_file w) m →
  ∃ weights d,
    load_context_weights w = (Return weights, w) ∧
    (∀ w', py_get weights "default_behavior_weights" (VDict ∅) w'
           = (Return (VDict d), w')) ∧
    number <$> d = Some <$> m.
Proof.
  unfold load_context_weights, json_load_file, try_except.
  destruct 1 as [e | top Hkey | top d m Hkey Hnum].
  - eexists _, _. split; [reflexivity|].
    split; [|exact default_weights_numbers].
    intros w'. simpl. by rewrite lookup_singleton_eq.
  - exists (VDict top), ∅. split; [reflexivity|]. split.
    + intros w'. simpl. by rewrite Hkey.
    + by rewrite !fmap_empty.
  - exists (VDict top), d. split; [reflexivity|]. split; [|done].
    intros w'. simpl. by rewrite Hkey.
Qed.

(** *** One state *)

Lemma normalize_single_state_run request w m :
  weight_mapping (context_weights_file w) m →
  normalize_single_state request w
  = (Return (normalized m w request), after_normalizing 1 w).
Proof.
  intros Hm.
  destruct (load_context_weights_run (uuid4_str w).2 m Hm)
    as (weights & d & Hload & Hget & Hnum).
  unfold normalize_single_state, float_mul.
  cbv [mbind Py_bind mret Py_ret]. simpl in *.
  rewrite Hload, Hget. simpl.
  rewrite (module_weight_run d m _ _ Hnum). simpl.
  rewrite (module_weight_run d m _ _ Hnum). reflexivity.
Qed.

(** *** A sequence of states *)

Lemma after_normalizing_add i j w :
  after_normalizing i (after_normalizing j w) = after_normalizing (i + j) w.
Proof. unfold after_normalizing. simpl. f_equal; lia. Qed.

Lemma normalize_each_run requests : ∀ w m,
  weight_mapping (context_weights_file w) m →
  normalize_each requests w
  = (Return (normalized_from m w requests),
     after_normalizing (length requests) w).
Proof.
  induction requests as [|r rest IH]; intros w m Hm; simpl.
  - by destruct w.
  - cbv [mbind Py_bind]. rewrite (normalize_single_state_run _ _ _ Hm).
    rewrite (IH (after_normalizing 1 w) m Hm). cbv [mret Py_ret].
    rewrite after_normalizing_add. do 2 f_equal. lia.
Qed.

Lemma length_normalized_from m requests : ∀ w,
  length (normalized_from m w requests) = length requests.
Proof. induction requests; intros w; simpl; auto. Qed.

Lemma lookup_normalized_from m requests : ∀ w i request,
  requests !! i = Some request →
  normalized_from m w requests !! i
  = Some (normalized m (after_normalizing i w) request).
Proof.
  induction requests as [|r rest IH]; intros w [|i] request Hi; simplify_eq/=.
  - by destruct w.
  - rewrite (IH _ _ _ Hi), after_normalizing_add. do 3 f_equal. lia.
Qed.

(** *** Writing the event records *)

Lemma log_normalized_state_stores request st w :
  insert_src w (insert_calls w) = None →
  ∃ w', log_normalized_state request st w = (Return tt, w') ∧
        insert_src w' = insert_src w ∧
        insert_calls w' = S (insert_calls w) ∧
        karma_events_col w'
        = karma_events_col w
          ++ [batch_event_record request st (utcnow_src w (utcnow_calls w))].
Proof.
  intros Hins. unfold log_normalized_state, insert_one, utcnow.
  cbv [mbind Py_bind]. simpl. rewrite Hins. eauto.
Qed.

(** When the collection accepts the writes, the second loop stores one
    event record per normalized state, in order. *)
Lemma for_each_log_stores request sts : ∀ w,
  (∀ i, i < length sts → insert_src w (insert_calls w + i) = None) →
  ∃ w' docs,
    for_each sts (log_normalized_state request) w = (Return tt, w') ∧
    karma_events_col w' = karma_events_col w ++ docs ∧
    Forall2 (λ st doc, ∃ t, doc = batch_event_record request st t) sts docs.
Proof.
  induction sts as [|st rest IH]; intros w Hins; simpl.
  - exists w, []. by rewrite app_nil_r.
  - destruct (log_normalized_state_stores request st w)
      as (w1 & Hrun & Hsrc & Hcalls & Hcol).
    { rewrite <- (Nat.add_0_r (insert_calls w)). apply Hins. simpl. lia. }
    destruct (IH w1) as (w' & docs & Hrest & Hcol' & Hdocs).
    { intros i Hi. rewrite Hsrc, Hcalls.
      replace (S (insert_calls w) + i) with (insert_calls w + S i) by lia.
      apply Hins. simpl. lia. }
    cbv [mbind Py_bind]. rewrite Hrun, Hrest.
    eexists _, (_ :: docs). split; [reflexivity|].
    split; [by rewrite Hcol', Hcol, <- app_assoc|].
    constructor; eauto.
Qed.

(** The request the second loop pairs with the [i]-th state: the first one
    with the action type of the [i]-th request, which is the [i]-th request
    itself when no two requests share an action type. *)
Lemma find_same_action_type (requests : list NormalizeStateRequest) i request :
  requests !! i = Some request →
  ∃ first,
    List.find (λ req, bool_decide (rq_action_type req = rq_action_type request))
              requests = Some first ∧
    rq_action_type first = rq_action_type request ∧
    (NoDup (rq_action_type <$> requests) → first = request).
Proof.
  intros Hi.
  destruct (List.find _ requests) as [first|] eqn:Hfind.
  - apply List.find_some in Hfind as [Hin Hsame].
    apply bool_decide_eq_true in Hsame.
    exists first. split; [done|]. split; [done|]. intros Hnodup.
    apply list_elem_of_In, list_elem_of_lookup in Hin as [j Hj].
    assert (j = i) as ->; [|congruence].
    eapply (NoDup_lookup _ _ _ _ Hnodup).
    + by rewrite list_lookup_fmap, Hj.
    + rewrite list_lookup_fmap, Hi. simpl. by f_equal.
  - exfalso. eapply List.find_none in Hfind.
    + by apply bool_decide_eq_false in Hfind.
    + apply list_elem_of_In. by eapply list_elem_of_lookup_2.
Qed.

(** A weight converts to the same float wherever it is converted. *)
Lemma to_float_pure v w x w' :
  to_float v w = (Return x, w') →
  w' = w ∧ ∀ w2, to_float v w2 = (Return x, w2).
Proof.
  destruct v; simpl; try discriminate; cbv [mret Py_ret raise].
  - intros [= <- <-]. done.
  - destruct (is_infinity (float_of_Z z)); [discriminate|].
    intros [= <- <-]. done.
  - intros [= <- <-]. done.
Qed.

(** *** The claims *)

(** C1.  Whatever mapping [m] the weight source supplies (the documented
    defaults [{finance:1.0, game:1.2, gurukul:1.3, insight:1.1}] when the
    source fails to load), normalizing a request returns a state whose
    [weight] is the entry of [m] for the request's module, 1.0 when [m]
    has no such entry, and whose [feedback_value] is [raw_value] times
    that [weight]. *)
Theorem normalize_single_state_feedback_value request w m :
  weight_mapping (context_weights_file w) m →
  ∃ st w',
    normalize_single_state request w = (Return st, w') ∧
    weight st = default 1.0%float (m !! rq_module request) ∧
    feedback_value st = (raw_value request * weight st)%float ∧
    (∀ e, context_weights_file w = ReadFails e → m = default_behavior_weights).
Proof.
  intros Hm. eexists _, _. split; [by apply normalize_single_state_run|].
  repeat split. intros e He. rewrite He in Hm. by inversion Hm.
Qed.

Lemma normalize_single_state_feedback_value_witness :
  weight_mapping
    (context_weights_file
       (Samples.world Samples.weights_file Samples.unreachable))
    Samples.weights_of_file ∧
  ∃ st w',
    normalize_single_state (Samples.request "game" "play" 2.0)
      (Samples.world Samples.weights_file Samples.unreachable)
    = (Return st, w') ∧
    weight st = default 1.0%float (Samples.weights_of_file !! "game") ∧
    feedback_value st = (2.0 * weight st)%float ∧
    (∀ e, Samples.weights_file = ReadFails e →
          Samples.weights_of_file = default_behavior_weights).
Proof.
  assert (Hm : weight_mapping
    (context_weights_file
       (Samples.world Samples.weights_file Samples.unreachable))
    Samples.weights_of_file).
  { eapply weights_loaded; [reflexivity|]. vm_compute. reflexivity. }
  split; [exact Hm|].
  exact (normalize_single_state_feedback_value
           (Samples.request "game" "play" 2.0)
           (Samples.world Samples.weights_file Samples.unreachable)
           Samples.weights_of_file Hm).
Defined.

(** C6.  When the weight source supplies a mapping and the event
    collection accepts the writes, the batch operation returns one state
    per request, in the order of the requests: the [i]-th state is what
    normalizing the [i]-th request on its own yields, so it carries that
    request's module and action type and its raw value times the weight of
    its module. *)
Theorem normalize_state_batch_in_order request w m :
  weight_mapping (context_weights_file w) m →
  (∀ i, i < length (states request) →
        insert_src w (insert_calls w + i) = None) →
  ∃ normalized_states w',
    normalize_state_batch request w = (Return normalized_states, w') ∧
    length normalized_states = length (states request) ∧
    ∀ i state_request,
      states request !! i = Some state_request →
      ∃ st,
        normalized_states !! i = Some st ∧
        (normalize_single_state state_request (after_normalizing i w)).1
        = Return st ∧
        module st = rq_module state_request ∧
        action_type st = rq_action_type state_request ∧
        weight st = default 1.0%float (m !! rq_module state_request) ∧
        feedback_value st = (raw_value state_request * weight st)%float.
Proof.
  intros Hm Hins. unfold normalize_state_batch, try_except.
  cbv [mbind Py_bind]. rewrite (normalize_each_run _ _ _ Hm).
  destruct (for_each_log_stores request
              (normalized_from m w (states request))
              (after_normalizing (length (states request)) w))
    as (w' & docs & Hlog & _).
  { rewrite length_normalized_from. exact Hins. }
  rewrite Hlog. eexists _, _. split; [reflexivity|].
  split; [apply length_normalized_from|].
  intros i state_request Hi. eexists.
  split; [by apply lookup_normalized_from|].
  split; [|done].
  by rewrite (normalize_single_state_run _ (after_normalizing i w) m).
Qed.

Lemma normalize_state_batch_in_order_witness :
  weight_mapping
    (context_weights_file (Samples.world Samples.no_file Samples.unreachable))
    default_behavior_weights ∧
  (∀ i, i < length (states Samples.duplicate_actions) →
        insert_src (Samples.world Samples.no_file Samples.unreachable)
          (insert_calls (Samples.world Samples.no_file Samples.unreachable) + i)
        = None) ∧
  ∃ normalized_states w',
    normalize_state_batch Samples.duplicate_actions
      (Samples.world Samples.no_file Samples.unreachable)
    = (Return normalized_states, w') ∧
    length normalized_states = length (states Samples.duplicate_actions) ∧
    ∀ i state_request,
      states Samples.duplicate_actions !! i = Some state_request →
      ∃ st,
        normalized_states !! i = Some st ∧
        (normalize_single_state state_request
           (after_normalizing i
              (Samples.world Samples.no_file Samples.unreachable))).1
        = Return st ∧
        module st = rq_module state_request ∧
        action_type st = rq_action_type state_request ∧
        weight st
        = default 1.0%float
            (default_behavior_weights !! rq_module state_request) ∧
        feedback_value st = (raw_value state_request * weight st)%float.
Proof.
  split; [apply weights_unavailable|].
  split; [intros i Hi; reflexivity|].
  apply (normalize_state_batch_in_order Samples.duplicate_actions
           (Samples.world Samples.no_file Samples.unreachable)
           default_behavior_weights).
  - apply weights_unavailable.
  - intros i Hi. reflexivity.
Defined.

(** C5.  The event record of a normalized state is paired with a request
    by its action type, not by its position.  For a batch of two requests
    with the same action type and raw values 1.0 and 2.0, the record
    written for the second state (its [event_id] is the second state's
    identifier) carries the raw value 1.0 of the first request. *)
Theorem normalize_state_batch_duplicate_action_types :
  ∃ normalized_states w' second record data,
    normalize_state_batch Samples.duplicate_actions
      (Samples.world Samples.no_file Samples.unreachable)
    = (Return normalized_states, w') ∧
    raw_value <$> states Samples.duplicate_actions
    = [1.0%float; 2.0%float] ∧
    normalized_states !! 1 = Some second ∧
    karma_events_col w' !! 1 = Some record ∧
    record !! "event_id" = Some (VStr (state_id second)) ∧
    record !! "data" = Some (VDict data) ∧
    data !! "raw_value" = Some (VFloat 1.0).
Proof.
  eexists _, _, _, _, _. split; [vm_compute; reflexivity|].
  repeat split; reflexivity.
Qed.

(** *** Further properties *)

(** X1.  What the batch operation writes.  When the weight source supplies
    a mapping and the event collection accepts the writes, one event
    record per request is appended, in the order of the requests.  The
    [i]-th record has the [i]-th state's identifier as [event_id] and
    carries the raw value, context and metadata of the first request whose
    action type is that of the [i]-th request: of the [i]-th request
    itself when no two requests of the batch share an action type. *)
Theorem normalize_state_batch_event_records request w m :
  weight_mapping (context_weights_file w) m →
  (∀ i, i < length (states request) →
        insert_src w (insert_calls w + i) = None) →
  ∃ normalized_states w',
    normalize_state_batch request w = (Return normalized_states, w') ∧
    length (karma_events_col w')
    = length (karma_events_col w) + length (states request) ∧
    ∀ i state_request,
      states request !! i = Some state_request →
      ∃ st first record data,
        normalized_states !! i = Some st ∧
        karma_events_col w' !! (length (karma_events_col w) + i)
        = Some record ∧
        record !! "event_id" = Some (VStr (state_id st)) ∧
        record !! "data" = Some (VDict data) ∧
        List.find (λ req, bool_decide (rq_action_type req
                                       = rq_action_type state_request))
                  (states request) = Some first ∧
        data !! "raw_value" = Some (VFloat (raw_value first)) ∧
        data !! "context" = Some (optional_dict (context first)) ∧
        data !! "metadata" = Some (optional_dict (metadata first)) ∧
        (NoDup (rq_action_type <$> states request) → first = state_request).
Proof.
  intros Hm Hins. unfold normalize_state_batch, try_except.
  cbv [mbind Py_bind]. rewrite (normalize_each_run _ _ _ Hm).
  destruct (for_each_log_stores request
              (normalized_from m w (states request))
              (after_normalizing (length (states request)) w))
    as (w' & docs & Hlog & Hcol & Hdocs).
  { rewrite length_normalized_from. exact Hins. }
  rewrite Hlog. simpl in Hcol. eexists _, _. split; [reflexivity|].
  pose proof (Forall2_length _ _ _ Hdocs) as Hlen.
  rewrite length_normalized_from in Hlen.
  split; [by rewrite Hcol, length_app, Hlen|].
  intros i state_request Hi.
  pose proof (lookup_normalized_from m _ w _ _ Hi) as Hst.
  destruct (Forall2_lookup_l _ _ _ _ _ Hdocs Hst) as (doc & Hdoc & t & ->).
  destruct (find_same_action_type _ _ _ Hi) as (first & Hfind & _ & Hpos).
  eexists _, first, _, _. split; [exact Hst|].
  split.
  { rewrite Hcol, lookup_app_r by lia.
    replace (length (karma_events_col w) + i - length (karma_events_col w))
      with i by lia.
    exact Hdoc. }
  split; [reflexivity|]. split; [reflexivity|]. split; [exact Hfind|].
  unfold find_original_request. simpl. rewrite Hfind.
  repeat split; try reflexivity. exact Hpos.
Qed.

Lemma normalize_state_batch_event_records_witness :
  weight_mapping
    (context_weights_file (Samples.world Samples.no_file Samples.unreachable))
    default_behavior_weights ∧
  (∀ i, i < length (states Samples.distinct_actions) →
        insert_src (Samples.world Samples.no_file Samples.unreachable)
          (insert_calls (Samples.world Samples.no_file Samples.unreachable) + i)
        = None) ∧
  NoDup (rq_action_type <$> states Samples.distinct_actions) ∧
  ∃ normalized_states w',
    normalize_state_batch Samples.distinct_actions
      (Samples.world Samples.no_file Samples.unreachable)
    = (Return normalized_states, w') ∧
    length (karma_events_col w')
    = length (karma_events_col
                (Samples.world Samples.no_file Samples.unreachable))
      + length (states Samples.distinct_actions) ∧
    ∀ i state_request,
      states Samples.distinct_actions !! i = Some state_request →
      ∃ st first record data,
        normalized_states !! i = Some st ∧
        karma_events_col w'
          !! (length (karma_events_col
                        (Samples.world Samples.no_file Samples.unreachable))
              + i)
        = Some record ∧
        record !! "event_id" = Some (VStr (state_id st)) ∧
        record !! "data" = Some (VDict data) ∧
        List.find (λ req, bool_decide (rq_action_type req
                                       = rq_action_type state_request))
                  (states Samples.distinct_actions) = Some first ∧
        data !! "raw_value" = Some (VFloat (raw_value first)) ∧
        data !! "context" = Some (optional_dict (context first)) ∧
        data !! "metadata" = Some (optional_dict (metadata first)) ∧
        (NoDup (rq_action_type <$> states Samples.distinct_actions) →
         first = state_request).
Proof.
  split; [apply weights_unavailable|].
  split; [intros i Hi; reflexivity|].
  split; [apply (bool_decide_unpack _); vm_compute; exact I|].
  apply (normalize_state_batch_event_records Samples.distinct_actions
           (Samples.world Samples.no_file Samples.unreachable)
           default_behavior_weights).
  - apply weights_unavailable.
  - intros i Hi. reflexivity.
Defined.

(** X3.  Whatever the weights file holds, a state that
    [normalize_single_state] returns carries the module and the action
    type of its request unchanged, and its [feedback_value] is the
    request's raw value times the [weight] it reports. *)
Theorem normalize_single_state_passes_through request w st w' :
  normalize_single_state request w = (Return st, w') →
  module st = rq_module request ∧
  action_type st = rq_action_type request ∧
  feedback_value st = (raw_value request * weight st)%float.
Proof.
  unfold normalize_single_state, float_mul.
  cbv [mbind Py_bind mret Py_ret]. simpl.
  destruct (load_context_weights _) as [[weights|?] w1]; [|discriminate].
  destruct (py_get weights _ _ w1) as [[behavior_weights|?] w2];
    [|discriminate].
  destruct (py_get behavior_weights _ _ w2) as [[module_weight|?] w3];
    [|discriminate].
  destruct (to_float module_weight w3) as [[y|?] w4] eqn:Hy; [|discriminate].
  apply to_float_pure in Hy as [-> Hy]. simpl. rewrite Hy.
  by intros [= <- <-].
Qed.

Lemma normalize_single_state_passes_through_witness :
  ∃ st w',
    normalize_single_state (Samples.request "game" "play" 2.0)
      (Samples.world Samples.weights_file Samples.unreachable)
    = (Return st, w') ∧
    module st = "game" ∧
    action_type st = "play" ∧
    feedback_value st = (2.0 * weight st)%float.
Proof.
  eexists _, _. split; [reflexivity|].
  eapply (normalize_single_state_passes_through
            (Samples.request "game" "play" 2.0)
            (Samples.world Samples.weights_file Samples.unreachable)).
  reflexivity.
Defined.

(** X4.  The single-state route writes one event record, whose [event_id]
    is the identifier of the state it returns and which carries the raw
    value, context and metadata of the request itself. *)
Theorem normalize_state_event_record request w m :
  weight_mapping (context_weights_file w) m →
  insert_src w (insert_calls w) = None →
  ∃ st w' record data,
    normalize_state request w = (Return st, w') ∧
    karma_events_col w' = karma_events_col w ++ [record] ∧
    record !! "event_id" = Some (VStr (state_id st)) ∧
    record !! "data" = Some (VDict data) ∧
    data !! "raw_value" = Some (VFloat (raw_value request)) ∧
    data !! "normalized_value" = Some (VFloat (feedback_value st)) ∧
    data !! "context" = Some (optional_dict (context request)) ∧
    data !! "metadata" = Some (optional_dict (metadata request)).
Proof.
  intros Hm Hins. unfold normalize_state, try_except.
  cbv [mbind Py_bind]. rewrite (normalize_single_state_run _ _ _ Hm).
  unfold insert_one, utcnow. simpl. rewrite Hins.
  eexists _, _, _, _. split; [reflexivity|]. repeat split; reflexivity.
Qed.

Lemma normalize_state_event_record_witness :
  weight_mapping
    (context_weights_file (Samples.world Samples.no_file Samples.unreachable))
    default_behavior_weights ∧
  insert_src (Samples.world Samples.no_file Samples.unreachable)
    (insert_calls (Samples.world Samples.no_file Samples.unreachable))
  = None ∧
  ∃ st w' record data,
    normalize_state (Samples.request "game" "donate" 2.0)
      (Samples.world Samples.no_file Samples.unreachable)
    = (Return st, w') ∧
    karma_events_col w'
    = karma_events_col (Samples.world Samples.no_file Samples.unreachable)
      ++ [record] ∧
    record !! "event_id" = Some (VStr (state_id st)) ∧
    record !! "data" = Some (VDict data) ∧
    data !! "raw_value" = Some (VFloat 2.0) ∧
    data !! "normalized_value" = Some (VFloat (feedback_value st)) ∧
    data !! "context" = Some VNone ∧
    data !! "metadata" = Some VNone.
Proof.
  split; [apply weights_unavailable|]. split; [reflexivity|].
  apply (normalize_state_event_record (Samples.request "game" "donate" 2.0)
           (Samples.world Samples.no_file Samples.unreachable)
           default_behavior_weights).
  - apply weights_unavailable.
  - reflexivity.
Defined.

(** X5.  Loading the weights never fails and changes nothing: it returns
    the document of the file when the file loads, and the documented
    defaults under ["default_behavior_weights"] when it does not. *)
Theorem load_context_weights_absorbs_failure w :
  ∃ weights,
    load_context_weights w = (Return weights, w) ∧
    match context_weights_file w with
    | ReadJson j => weights = j
    | ReadFails _ =>
        weights = VDict {[ "default_behavior_weights" :=
                     VDict (VFloat <$> default_behavior_weights) ]}
    end.
Proof.
  unfold load_context_weights, json_load_file, try_except.
  destruct (context_weights_file w); eexists; (split; [reflexivity|]).
  - cbv [mret Py_ret]. vm_compute. reflexivity.
  - reflexivity.
Qed.

(** *** What normalization leaves alone *)

Lemma to_float_frame v w o w' : to_float v w = (o, w') → w' = w.
Proof.
  destruct v; simpl; cbv [mret Py_ret raise]; try by intros [= _ <-].
  destruct (is_infinity _); by intros [= _ <-].
Qed.

Lemma py_get_frame obj key dflt w o w' :
  py_get obj key dflt w = (o, w') → w' = w.
Proof. destruct obj; simpl; cbv [mret Py_ret raise]; by intros [= _ <-]. Qed.

Lemma load_context_weights_frame w o w' :
  load_context_weights w = (o, w') → w' = w.
Proof.
  unfold load_context_weights, json_load_file, try_except.
  destruct (context_weights_file w); cbv [mret Py_ret]; by intros [= _ <-].
Qed.

Lemma same_store_trans w1 w2 w3 :
  same_store w1 w2 → same_store w2 w3 → same_store w1 w3.
Proof.
  unfold same_store. intros (?&?&?&?&?) (?&?&?&?&?). repeat split; congruence.
Qed.

(** Whether it returns or raises, normalizing a state writes nothing and
    sends nothing. *)
Lemma normalize_single_state_frame request w o w' :
  normalize_single_state request w = (o, w') → same_store w w'.
Proof.
  unfold normalize_single_state, float_mul.
  cbv [mbind Py_bind mret Py_ret]. simpl.
  destruct (load_context_weights _) as [[weights|?] w1] eqn:H1;
    apply load_context_weights_frame in H1 as ->;
    [|by intros [= _ <-]].
  destruct (py_get weights _ _ _) as [[bw|?] w2] eqn:H2;
    apply py_get_frame in H2 as ->; [|by intros [= _ <-]].
  destruct (py_get bw _ _ _) as [[mw|?] w3] eqn:H3;
    apply py_get_frame in H3 as ->; [|by intros [= _ <-]].
  destruct (to_float mw _) as [[y|?] w4] eqn:H4;
    apply to_float_frame in H4 as ->; [|by intros [= _ <-]].
  simpl.
  destruct (to_float mw _) as [[y'|?] w5] eqn:H5;
    apply to_float_frame in H5 as ->; by intros [= _ <-].
Qed.

Lemma normalize_each_frame requests : ∀ w o w',
  normalize_each requests w = (o, w') → same_store w w'.
Proof.
  induction requests as [|r rest IH]; intros w o w'; simpl.
  - cbv [mret Py_ret]. by intros [= _ <-].
  - cbv [mbind Py_bind mret Py_ret].
    destruct (normalize_single_state r w) as [[st|e] w1] eqn:H1;
      apply normalize_single_state_frame in H1; [|by intros [= _ <-]].
    destruct (normalize_each rest w1) as [[sts|e] w2] eqn:H2;
      apply IH in H2; intros [= _ <-]; by eapply same_store_trans.
Qed.

(** When the collection rejects the insert number [k], the second loop
    stops there: the records of the first [k] states are stored, and the
    error of the collection is raised. *)
Lemma for_each_log_fails request sts : ∀ w k e,
  k < length sts →
  (∀ i, i < k → insert_src w (insert_calls w + i) = None) →
  insert_src w (insert_calls w + k) = Some e →
  ∃ w' docs,
    for_each sts (log_normalized_state request) w = (Raise e, w') ∧
    karma_events_col w' = karma_events_col w ++ docs ∧
    Forall2 (λ st doc, ∃ t, doc = batch_event_record request st t)
            (take k sts) docs.
Proof.
  induction sts as [|st rest IH]; intros w k e Hk Hok Hfail; simpl in *; [lia|].
  destruct k as [|k].
  - rewrite Nat.add_0_r in Hfail.
    unfold log_normalized_state, insert_one, utcnow.
    cbv [mbind Py_bind]. simpl. rewrite Hfail.
    eexists _, []. split; [reflexivity|]. simpl.
    split; [by rewrite app_nil_r|constructor].
  - destruct (log_normalized_state_stores request st w)
      as (w1 & Hrun & Hsrc & Hcalls & Hcol).
    { rewrite <- (Nat.add_0_r (insert_calls w)). apply Hok. lia. }
    destruct (IH w1 k e) as (w' & docs & Hrest & Hcol' & Hdocs).
    + lia.
    + intros i Hi. rewrite Hsrc, Hcalls.
      replace (S (insert_calls w) + i) with (insert_calls w + S i) by lia.
      apply Hok. lia.
    + rewrite Hsrc, Hcalls.
      by replace (S (insert_calls w) + k) with (insert_calls w + S k) by lia.
    + cbv [mbind Py_bind]. rewrite Hrun, Hrest.
      eexists _, (_ :: docs). split; [reflexivity|].
      split; [by rewrite Hcol', Hcol, <- app_assoc|].
      simpl. constructor; eauto.
Qed.

(** The identifiers of the sample worlds are pairwise distinct. *)
Lemma sample_uuid4_src_inj file endpoint a b :
  uuid4_src (Samples.world file endpoint) a
  = uuid4_src (Samples.world file endpoint) b → a = b.
Proof.
  simpl. intros H. apply (inj (String.app "uuid-")) in H.
  by apply (inj pretty) in H.
Qed.

(** *** Failure and atomicity *)

(** X6.  The single-state route either returns a state and appends exactly
    one event record, whose [event_id] is the identifier of that state, or
    raises an [HTTPException] with status 500 whose detail is
    ["Error normalizing state: "] followed by the text of the cause, and
    leaves the event collection as it was.  It raises nothing else. *)
Theorem normalize_state_all_or_nothing request w :
  (∃ st record w',
     normalize_state request w = (Return st, w') ∧
     karma_events_col w' = karma_events_col w ++ [record] ∧
     record !! "event_id" = Some (VStr (state_id st)))
  ∨
  (∃ cause w',
     normalize_state request w
     = (Raise (HTTPException 500 ("Error normalizing state: " +:+ str cause)),
        w') ∧
     karma_events_col w' = karma_events_col w).
Proof.
  unfold normalize_state, try_except. cbv [mbind Py_bind mret Py_ret raise].
  destruct (normalize_single_state request w) as [[st|e] w1] eqn:H1;
    apply normalize_single_state_frame in H1 as (Hcol & _).
  - unfold insert_one, utcnow. simpl.
    destruct (insert_src w1 (insert_calls w1)) as [e|].
    + right. eexists e, _. split; [reflexivity|]. exact Hcol.
    + left. eexists st, _, _. split; [reflexivity|]. simpl. rewrite Hcol.
      split; reflexivity.
  - right. eexists e, _. split; [reflexivity|]. exact Hcol.
Qed.

(** X7.  When normalizing some state of a batch raises, the batch
    operation raises an [HTTPException] with status 500 whose detail is
    ["Error normalizing batch states: "] followed by the text of that
    error, and nothing has been written: every state is normalized before
    the first record is inserted. *)
Theorem normalize_state_batch_normalization_failure request w e w1 :
  normalize_each (states request) w = (Raise e, w1) →
  ∃ w',
    normalize_state_batch request w
    = (Raise (HTTPException 500
                ("Error normalizing batch states: " +:+ str e)), w') ∧
    karma_events_col w' = karma_events_col w ∧
    insert_calls w' = insert_calls w.
Proof.
  intros Hrun.
  pose proof (normalize_each_frame _ _ _ _ Hrun) as (Hcol & Hcalls & _).
  unfold normalize_state_batch, try_except. cbv [mbind Py_bind raise].
  rewrite Hrun. eauto.
Qed.

Lemma normalize_state_batch_normalization_failure_witness :
  ∃ e w1,
    normalize_each (states Samples.distinct_actions)
      (Samples.world Samples.text_weight_file Samples.unreachable)
    = (Raise e, w1) ∧
    ∃ w',
      normalize_state_batch Samples.distinct_actions
        (Samples.world Samples.text_weight_file Samples.unreachable)
      = (Raise (HTTPException 500
                  ("Error normalizing batch states: " +:+ str e)), w') ∧
      karma_events_col w'
      = karma_events_col
          (Samples.world Samples.text_weight_file Samples.unreachable) ∧
      insert_calls w'
      = insert_calls
          (Samples.world Samples.text_weight_file Samples.unreachable).
Proof.
  eexists _, _. split; [vm_compute; reflexivity|].
  eapply (normalize_state_batch_normalization_failure
            Samples.distinct_actions
            (Samples.world Samples.text_weight_file Samples.unreachable)).
  vm_compute. reflexivity.
Defined.

(** X8.  When the weight source supplies a mapping and the event
    collection accepts the first [k] inserts of a batch and rejects the
    next one, the batch operation raises an [HTTPException] with status
    500 carrying the text of the collection's error, and the records of
    the first [k] states stay stored: nothing is rolled back. *)
Theorem normalize_state_batch_insert_failure request w m k e :
  weight_mapping (context_weights_file w) m →
  k < length (states request) →
  (∀ i, i < k → insert_src w (insert_calls w + i) = None) →
  insert_src w (insert_calls w + k) = Some e →
  ∃ w' docs,
    normalize_state_batch request w
    = (Raise (HTTPException 500
                ("Error normalizing batch states: " +:+ str e)), w') ∧
    karma_events_col w' = karma_events_col w ++ docs ∧
    length docs = k ∧
    ∀ i doc, docs !! i = Some doc →
      doc !! "event_id" = Some (VStr (uuid4_src w (i + uuid4_calls w))).
Proof.
  intros Hm Hk Hok Hfail. unfold normalize_state_batch, try_except.
  cbv [mbind Py_bind raise]. rewrite (normalize_each_run _ _ _ Hm).
  destruct (for_each_log_fails request
              (normalized_from m w (states request))
              (after_normalizing (length (states request)) w) k e)
    as (w' & docs & Hlog & Hcol & Hdocs); try done.
  { by rewrite length_normalized_from. }
  rewrite Hlog. eexists _, docs. split; [reflexivity|].
  split; [exact Hcol|].
  pose proof (Forall2_length _ _ _ Hdocs) as Hlen.
  rewrite length_take, length_normalized_from in Hlen.
  split; [lia|]. intros i doc Hdoc.
  destruct (Forall2_lookup_r _ _ _ _ _ Hdocs Hdoc) as (st & Hst & t & ->).
  apply lookup_take_Some in Hst as [Hst Hi].
  destruct (lookup_lt_is_Some_2 (states request) i) as [req Hreq]; [lia|].
  rewrite (lookup_normalized_from _ _ _ _ _ Hreq) in Hst.
  injection Hst as <-. reflexivity.
Qed.

Lemma normalize_state_batch_insert_failure_witness :
  weight_mapping (context_weights_file (Samples.rejecting_world 1))
    default_behavior_weights ∧
  1 < length (states Samples.distinct_actions) ∧
  (∀ i, i < 1 →
        insert_src (Samples.rejecting_world 1)
          (insert_calls (Samples.rejecting_world 1) + i) = None) ∧
  insert_src (Samples.rejecting_world 1)
    (insert_calls (Samples.rejecting_world 1) + 1)
  = Some (PyMongoError "not primary") ∧
  ∃ w' docs,
    normalize_state_batch Samples.distinct_actions (Samples.rejecting_world 1)
    = (Raise (HTTPException 500
                ("Error normalizing batch states: "
                   +:+ str (PyMongoError "not primary"))), w') ∧
    karma_events_col w'
    = karma_events_col (Samples.rejecting_world 1) ++ docs ∧
    length docs = 1 ∧
    ∀ i doc, docs !! i = Some doc →
      doc !! "event_id"
      = Some (VStr (uuid4_src (Samples.rejecting_world 1)
                      (i + uuid4_calls (Samples.rejecting_world 1)))).
Proof.
  assert (Hok : ∀ i, i < 1 →
    insert_src (Samples.rejecting_world 1)
      (insert_calls (Samples.rejecting_world 1) + i) = None).
  { intros [|i] Hi; [reflexivity|lia]. }
  split; [apply weights_unavailable|]. split; [simpl; lia|].
  split; [exact Hok|]. split; [reflexivity|].
  apply (normalize_state_batch_insert_failure Samples.distinct_actions
           (Samples.rejecting_world 1) default_behavior_weights 1
           (PyMongoError "not primary")).
  - apply weights_unavailable.
  - simpl. lia.
  - exact Hok.
  - reflexivity.
Defined.

(** X9.  When the identifier source never repeats itself, the states of
    one batch have pairwise distinct [state_id]s. *)
Theorem normalize_state_batch_distinct_ids request w m :
  weight_mapping (context_weights_file w) m →
  (∀ i, i < length (states request) →
        insert_src w (insert_calls w + i) = None) →
  (∀ a b, uuid4_src w a = uuid4_src w b → a = b) →
  ∃ normalized_states w',
    normalize_state_batch request w = (Return normalized_states, w') ∧
    NoDup (state_id <$> normalized_states).
Proof.
  intros Hm Hins Hinj. unfold normalize_state_batch, try_except.
  cbv [mbind Py_bind]. rewrite (normalize_each_run _ _ _ Hm).
  destruct (for_each_log_stores request
              (normalized_from m w (states request))
              (after_normalizing (length (states request)) w))
    as (w' & docs & Hlog & _).
  { rewrite length_normalized_from. exact Hins. }
  rewrite Hlog. eexists _, _. split; [reflexivity|].
  apply NoDup_alt. intros i j x Hi Hj.
  rewrite list_lookup_fmap in Hi, Hj.
  destruct (normalized_from m w (states request) !! i) as [sti|] eqn:Hsti;
    [|discriminate].
  destruct (normalized_from m w (states request) !! j) as [stj|] eqn:Hstj;
    [|discriminate].
  simpl in Hi, Hj.
  pose proof (lookup_lt_Some _ _ _ Hsti) as Hli.
  pose proof (lookup_lt_Some _ _ _ Hstj) as Hlj.
  rewrite length_normalized_from in Hli, Hlj.
  destruct (lookup_lt_is_Some_2 (states request) i Hli) as [ri Hri].
  destruct (lookup_lt_is_Some_2 (states request) j Hlj) as [rj Hrj].
  rewrite (lookup_normalized_from _ _ _ _ _ Hri) in Hsti.
  rewrite (lookup_normalized_from _ _ _ _ _ Hrj) in Hstj.
  simplify_eq/=.
  match goal with
  | H : uuid4_src _ _ = uuid4_src _ _ |- _ => apply Hinj in H
  end.
  lia.
Qed.

Lemma normalize_state_batch_distinct_ids_witness :
  weight_mapping
    (context_weights_file (Samples.world Samples.no_file Samples.unreachable))
    default_behavior_weights ∧
  (∀ i, i < length (states Samples.duplicate_actions) →
        insert_src (Samples.world Samples.no_file Samples.unreachable)
          (insert_calls (Samples.world Samples.no_file Samples.unreachable) + i)
        = None) ∧
  (∀ a b,
     uuid4_src (Samples.world Samples.no_file Samples.unreachable) a
     = uuid4_src (Samples.world Samples.no_file Samples.unreachable) b →
     a = b) ∧
  ∃ normalized_states w',
    normalize_state_batch Samples.duplicate_actions
      (Samples.world Samples.no_file Samples.unreachable)
    = (Return normalized_states, w') ∧
    NoDup (state_id <$> normalized_states).
Proof.
  split; [apply weights_unavailable|].
  split; [intros i Hi; reflexivity|].
  split; [apply sample_uuid4_src_inj|].
  apply (normalize_state_batch_distinct_ids Samples.duplicate_actions
           (Samples.world Samples.no_file Samples.unreachable)
           default_behavior_weights).
  - apply weights_unavailable.
  - intros i Hi. reflexivity.
  - apply sample_uuid4_src_inj.
Defined.

(** *** The documented scenarios *)

(** The documented fallback at work: with no weights file, each module
    gets its default weight and an unknown module gets 1.0. *)
Example normalize_with_defaults :
  match
    (normalize_each
       [ Samples.request "finance" "a" 10; Samples.request "game" "b" 10;
         Samples.request "gurukul" "c" 10; Samples.request "insight" "d" 10;
         Samples.request "other" "e" 10 ]
       (Samples.world Samples.no_file Samples.unreachable)).1
  with
  | Return sts => (λ st, (module st, weight st, feedback_value st)) <$> sts
  | Raise _ => []
  end
  = [ ("finance", 1.0, 10); ("game", 1.2, 12); ("gurukul", 1.3, 13);
      ("insight", 1.1, 11); ("other", 1.0, 10) ]%float.
Proof. vm_compute. reflexivity. Qed.

(** A weights file of the wrong shape is not absorbed: the lookup fails. *)
Example normalize_with_list_file :
  (normalize_single_state (Samples.request "game" "play" 2.0)
     (Samples.world (ReadJson (VList [])) Samples.unreachable)).1
  = Raise (AttributeError "object has no attribute 'get'").
Proof. reflexivity. Qed.

End normalization_facts.

(* ===================================================================== *)
(** ** Properties of utils/stp_bridge.py                                   *)
(* ===================================================================== *)

Module stp_bridge_facts.
Import stp_bridge.

(** *** POST calls *)

Lemma after_posts_0 call w : after_posts 0 call w = w.
Proof. destruct w. unfold after_posts. simpl. by rewrite app_nil_r. Qed.

Lemma after_posts_S n call w :
  after_posts n call (log_post call w) = after_posts (S n) call w.
Proof. unfold after_posts, log_post. simpl. by rewrite <- app_assoc. Qed.

(** *** One attempt *)

Lemma failure_of_no_success o :
  returns_success_code o = false → ∃ e, recorded_failure o = Some e.
Proof.
  destruct o as [e|r]; simpl; [eauto|]. intros ->.
  destruct (content r), (json r); eauto.
Qed.

Lemma send_attempt_failure self payload attempt w e :
  recorded_failure (endpoint_src w (length (posts w))) = Some e →
  send_attempt self payload attempt w
  = (Return (inr e), log_post (post_of self payload) w).
Proof.
  unfold send_attempt, requests_post, try_except, response_json.
  cbv [mbind Py_bind mret Py_ret].
  destruct (endpoint_src w (length (posts w))) as [e'|r]; simpl.
  - by intros [= ->].
  - destruct (content r), (json r); simpl;
      destruct (is_success_code (status_code r)); intros [= <-]; reflexivity.
Qed.

Lemma send_attempt_success self payload attempt w r body :
  endpoint_src w (length (posts w)) = Responded r →
  is_success_code (status_code r) = true →
  parsed_body r = Some body →
  send_attempt self payload attempt w
  = (Return (inl (VDict {[ "status_code" := VInt (status_code r);
                           "response" := body;
                           "attempt" := VInt (attempt + 1) ]})),
     log_post (post_of self payload) w).
Proof.
  intros Hr Hcode.
  unfold send_attempt, requests_post, try_except, response_json, parsed_body.
  cbv [mbind Py_bind mret Py_ret]. rewrite Hr. simpl.
  destruct (content r), (json r); simpl; rewrite ?Hcode;
    intros [= <-]; reflexivity.
Qed.

(** *** The retry loop *)

(** When every attempt fails the loop runs through all of them and raises
    the failure of the last one (its initial [last_exception] when there
    is no attempt at all). *)
Lemma retry_loop_exhausted self payload attempts : ∀ last w,
  (∀ j, j < length attempts →
        returns_success_code (endpoint_src w (length (posts w) + j)) = false) →
  ∃ e,
    retry_loop self payload attempts last w
    = (Raise e, after_posts (length attempts) (post_of self payload) w) ∧
    match length attempts with
    | 0 => e = last
    | S m => recorded_failure (endpoint_src w (length (posts w) + m)) = Some e
    end.
Proof.
  induction attempts as [|attempt rest IH]; intros last w Hfail; simpl.
  - exists last. by rewrite after_posts_0.
  - destruct (failure_of_no_success (endpoint_src w (length (posts w))))
      as [e1 He1].
    { rewrite <- (Nat.add_0_r (length (posts w))). apply Hfail. simpl. lia. }
    cbv [mbind Py_bind]. rewrite (send_attempt_failure _ _ _ _ _ He1).
    destruct (IH e1 (log_post (post_of self payload) w))
      as (e & Hrun & Hlast).
    { intros j Hj. simpl. rewrite length_app. simpl.
      replace (length (posts w) + 1 + j) with (length (posts w) + S j) by lia.
      apply Hfail. simpl. lia. }
    exists e. rewrite Hrun, after_posts_S. split; [done|].
    destruct (length rest) as [|m]; simpl in Hlast.
    + subst e. by rewrite Nat.add_0_r.
    + rewrite length_app in Hlast. simpl in Hlast.
      by replace (length (posts w) + S m)
        with (length (posts w) + 1 + m) by lia.
Qed.

(** The loop stops at the first attempt that comes back with a success
    code and a body that parses; the attempts before it all went out. *)
Lemma retry_loop_success self payload before attempt rest r body : ∀ last w,
  (∀ j, j < length before →
        returns_success_code (endpoint_src w (length (posts w) + j)) = false) →
  endpoint_src w (length (posts w) + length before) = Responded r →
  is_success_code (status_code r) = true →
  parsed_body r = Some body →
  retry_loop self payload (before ++ attempt :: rest) last w
  = (Return (VDict {[ "status_code" := VInt (status_code r);
                      "response" := body;
                      "attempt" := VInt (attempt + 1) ]}),
     after_posts (S (length before)) (post_of self payload) w).
Proof.
  induction before as [|a before IH]; intros last w Hfail Hr Hcode Hbody; simpl.
  - cbv [mbind Py_bind]. simpl in Hr. rewrite Nat.add_0_r in Hr.
    rewrite (send_attempt_success _ _ _ _ _ _ Hr Hcode Hbody).
    by rewrite <- after_posts_S, after_posts_0.
  - destruct (failure_of_no_success (endpoint_src w (length (posts w))))
      as [e1 He1].
    { rewrite <- (Nat.add_0_r (length (posts w))). apply Hfail. simpl. lia. }
    cbv [mbind Py_bind]. rewrite (send_attempt_failure _ _ _ _ _ He1).
    rewrite (IH e1 (log_post (post_of self payload) w)), ?after_posts_S;
      try done.
    + intros j Hj. simpl. rewrite length_app. simpl.
      replace (length (posts w) + 1 + j) with (length (posts w) + S j) by lia.
      apply Hfail. simpl. lia.
    + simpl. rewrite length_app. simpl. rewrite <- Hr. f_equal. simpl. lia.
Qed.

(** *** forward_signal *)

(** An enabled bridge builds its payload once, sends it, and turns what
    the retry procedure does into a result. *)
Lemma forward_signal_enabled_run self signal w :
  enabled self = true →
  forward_signal self signal w =
  match _send_with_retry self (transmission_payload signal w)
                         (sending_world w) with
  | (Return response, w2) =>
      (Return {[ "status" := VStr "success";
                 "signal_id" := reported_signal_id signal w;
                 "transmission_id" := VStr (uuid4_src w (S (uuid4_calls w)));
                 "response" := response;
                 "timestamp" :=
                   VStr (isoformat (utcnow_src w2 (utcnow_calls w2))) ]},
       (utcnow w2).2)
  | (Raise e, w2) =>
      (Return {[ "status" := VStr "error";
                 "signal_id" := reported_signal_id signal w;
                 "error" := VStr (str e);
                 "timestamp" :=
                   VStr (isoformat (utcnow_src w2 (utcnow_calls w2))) ]},
       (utcnow w2).2)
  end.
Proof.
  intros Hen. unfold forward_signal. rewrite Hen. simpl.
  unfold try_except. cbv [mbind Py_bind]. simpl.
  fold (sending_world w). fold (transmission_payload signal w).
  destruct (_send_with_retry self (transmission_payload signal w)
              (sending_world w)) as [[response|e] w2]; reflexivity.
Qed.

(** *** The claims *)

(** C4.  A bridge constructed with [enabled] false returns a result with
    status [skipped] and sends nothing: the POST calls of the world are
    those made before, so there is no attempt and no retry. *)
Theorem forward_signal_disabled self signal w :
  enabled self = false →
  ∃ result w',
    forward_signal self signal w = (Return result, w') ∧
    result !! "status" = Some (VStr "skipped") ∧
    posts w' = posts w.
Proof.
  intros Hen. unfold forward_signal. rewrite Hen. simpl.
  eexists _, _. split; [reflexivity|]. split; reflexivity.
Qed.

Lemma forward_signal_disabled_witness :
  enabled Samples.disabled_bridge = false ∧
  ∃ result w',
    forward_signal Samples.disabled_bridge Samples.signal
      (Samples.world Samples.no_file Samples.always_200)
    = (Return result, w') ∧
    result !! "status" = Some (VStr "skipped") ∧
    posts w' = posts (Samples.world Samples.no_file Samples.always_200).
Proof.
  split; [reflexivity|].
  apply (forward_signal_disabled Samples.disabled_bridge Samples.signal
           (Samples.world Samples.no_file Samples.always_200)).
  reflexivity.
Defined.

(** C9.  With [retry_attempts] zero or negative the loop body never runs:
    an enabled bridge sends nothing and returns a result with status
    [error] whose error detail is the placeholder ['Unknown error']. *)
Theorem forward_signal_no_attempts self signal w :
  enabled self = true →
  (retry_attempts self ≤ 0)%Z →
  ∃ result w',
    forward_signal self signal w = (Return result, w') ∧
    result !! "status" = Some (VStr "error") ∧
    result !! "error" = Some (VStr "Unknown error") ∧
    posts w' = posts w.
Proof.
  intros Hen Hle. rewrite (forward_signal_enabled_run _ _ _ Hen).
  unfold _send_with_retry. rewrite seqZ_nil by done. simpl.
  eexists _, _. split; [reflexivity|]. repeat split; reflexivity.
Qed.

Lemma forward_signal_no_attempts_witness :
  enabled Samples.no_retry_bridge = true ∧
  (retry_attempts Samples.no_retry_bridge ≤ 0)%Z ∧
  ∃ result w',
    forward_signal Samples.no_retry_bridge Samples.signal
      (Samples.world Samples.no_file Samples.always_200)
    = (Return result, w') ∧
    result !! "status" = Some (VStr "error") ∧
    result !! "error" = Some (VStr "Unknown error") ∧
    posts w' = posts (Samples.world Samples.no_file Samples.always_200).
Proof.
  split; [reflexivity|]. split; [reflexivity|].
  apply (forward_signal_no_attempts Samples.no_retry_bridge Samples.signal
           (Samples.world Samples.no_file Samples.always_200));
    reflexivity.
Defined.

(** C2.  When the bridge is enabled and each of the [retry_attempts]
    attempts fails (a network error, or a status code other than 200 and
    201), [forward_signal] sends exactly [retry_attempts] POST calls, all
    with the same payload, raises nothing, and returns a result with
    status [error] whose error detail is the text of the failure that the
    last attempt recorded (of the placeholder when there was no attempt at
    all). *)
Theorem forward_signal_all_attempts_fail self signal w :
  enabled self = true →
  (∀ k, 1 ≤ k ≤ Z.to_nat (retry_attempts self) →
        returns_success_code (nth_attempt w k) = false) →
  ∃ result w' payload e,
    forward_signal self signal w = (Return result, w') ∧
    posts w' = posts w ++ replicate (Z.to_nat (retry_attempts self))
                                    (post_of self payload) ∧
    result !! "status" = Some (VStr "error") ∧
    result !! "error" = Some (VStr (str e)) ∧
    match Z.to_nat (retry_attempts self) with
    | 0 => e = Exception_ "Unknown error"
    | S _ as n => recorded_failure (nth_attempt w n) = Some e
    end.
Proof.
  intros Hen Hfail. rewrite (forward_signal_enabled_run _ _ _ Hen).
  unfold _send_with_retry.
  destruct (retry_loop_exhausted self (transmission_payload signal w)
              (seqZ 0 (retry_attempts self)) (Exception_ "Unknown error")
              (sending_world w)) as (e & Hrun & Hlast).
  { rewrite length_seqZ. intros j Hj. apply (Hfail (S j)). lia. }
  rewrite Hrun. rewrite length_seqZ in *.
  eexists _, _, _, e. split; [reflexivity|]. repeat split; try reflexivity.
  exact Hlast.
Qed.

Lemma forward_signal_all_attempts_fail_witness :
  enabled stp_bridge = true ∧
  (∀ k, 1 ≤ k ≤ Z.to_nat (retry_attempts stp_bridge) →
        returns_success_code
          (nth_attempt (Samples.world Samples.no_file Samples.always_500) k)
        = false) ∧
  ∃ result w' payload e,
    forward_signal stp_bridge Samples.signal
      (Samples.world Samples.no_file Samples.always_500)
    = (Return result, w') ∧
    posts w'
    = posts (Samples.world Samples.no_file Samples.always_500)
      ++ replicate (Z.to_nat (retry_attempts stp_bridge))
                   (post_of stp_bridge payload) ∧
    result !! "status" = Some (VStr "error") ∧
    result !! "error" = Some (VStr (str e)) ∧
    match Z.to_nat (retry_attempts stp_bridge) with
    | 0 => e = Exception_ "Unknown error"
    | S _ as n =>
        recorded_failure
          (nth_attempt (Samples.world Samples.no_file Samples.always_500) n)
        = Some e
    end.
Proof.
  split; [reflexivity|]. split; [intros k Hk; reflexivity|].
  apply (forward_signal_all_attempts_fail stp_bridge Samples.signal
           (Samples.world Samples.no_file Samples.always_500)).
  - reflexivity.
  - intros k Hk. reflexivity.
Defined.

(** C3, as the code has it.  When the bridge is enabled and the [k]-th
    attempt ([1 <= k <= retry_attempts]) is the first to come back with
    status code 200 or 201, and the body of that response is empty or
    parses as JSON, then exactly [k] POST calls go out, all with the one
    payload built for the call; the result has status [success], carries
    the status code, the parsed body (the empty mapping for an empty body)
    and the attempt number [k], and its [transmission_id] is the one of
    the payload sent in each of the [k] attempts. *)
Theorem forward_signal_first_success self signal w k r body :
  enabled self = true →
  1 ≤ k →
  (Z.of_nat k ≤ retry_attempts self)%Z →
  (∀ j, 1 ≤ j < k → returns_success_code (nth_attempt w j) = false) →
  nth_attempt w k = Responded r →
  is_success_code (status_code r) = true →
  parsed_body r = Some body →
  ∃ result w' payload tid,
    forward_signal self signal w = (Return result, w') ∧
    posts w' = posts w ++ replicate k (post_of self payload) ∧
    payload !! "transmission_id" = Some (VStr tid) ∧
    result !! "transmission_id" = Some (VStr tid) ∧
    result !! "status" = Some (VStr "success") ∧
    result !! "response"
    = Some (VDict {[ "status_code" := VInt (status_code r);
                     "response" := body;
                     "attempt" := VInt (Z.of_nat k) ]}).
Proof.
  intros Hen Hk Hle Hfail Hr Hcode Hbody.
  rewrite (forward_signal_enabled_run _ _ _ Hen). unfold _send_with_retry.
  destruct k as [|n]; [lia|].
  replace (retry_attempts self)
    with (Z.of_nat n + Z.succ (retry_attempts self - Z.of_nat (S n)))%Z
    by lia.
  rewrite seqZ_app by lia. rewrite (seqZ_cons (0 + Z.of_nat n)) by lia.
  erewrite (retry_loop_success self _ (seqZ 0 (Z.of_nat n))); eauto.
  - rewrite length_seqZ, Nat2Z.id.
    replace (0 + Z.of_nat n + 1)%Z with (Z.of_nat (S n)) by lia.
    eexists _, _, (transmission_payload signal w), _.
    split; [reflexivity|]. repeat split; reflexivity.
  - rewrite length_seqZ, Nat2Z.id. intros j Hj. apply (Hfail (S j)). lia.
  - rewrite length_seqZ, Nat2Z.id. exact Hr.
Qed.

Lemma forward_signal_first_success_witness :
  enabled stp_bridge = true ∧
  1 ≤ 3 ∧
  (Z.of_nat 3 ≤ retry_attempts stp_bridge)%Z ∧
  (∀ j, 1 ≤ j < 3 →
        returns_success_code
          (nth_attempt
             (Samples.world Samples.no_file Samples.fails_twice_then_201) j)
        = false) ∧
  ∃ r,
    nth_attempt (Samples.world Samples.no_file Samples.fails_twice_then_201) 3
    = Responded r ∧
    is_success_code (status_code r) = true ∧
    parsed_body r = Some (VList [VBool true; VInt 7]) ∧
    ∃ result w' payload tid,
      forward_signal stp_bridge Samples.signal
        (Samples.world Samples.no_file Samples.fails_twice_then_201)
      = (Return result, w') ∧
      posts w'
      = posts (Samples.world Samples.no_file Samples.fails_twice_then_201)
        ++ replicate 3 (post_of stp_bridge payload) ∧
      payload !! "transmission_id" = Some (VStr tid) ∧
      result !! "transmission_id" = Some (VStr tid) ∧
      result !! "status" = Some (VStr "success") ∧
      result !! "response"
      = Some (VDict {[ "status_code" := VInt (status_code r);
                       "response" := VList [VBool true; VInt 7];
                       "attempt" := VInt (Z.of_nat 3) ]}).
Proof.
  assert (Hfail : ∀ j, 1 ≤ j < 3 →
    returns_success_code
      (nth_attempt
         (Samples.world Samples.no_file Samples.fails_twice_then_201) j)
    = false).
  { intros [|[|[|j]]] Hj; try reflexivity; lia. }
  split; [reflexivity|]. split; [lia|]. split; [reflexivity|].
  split; [exact Hfail|].
  eexists. split; [reflexivity|]. split; [reflexivity|].
  split; [reflexivity|].
  apply (forward_signal_first_success stp_bridge Samples.signal
           (Samples.world Samples.no_file Samples.fails_twice_then_201) 3
           _ (VList [VBool true; VInt 7]));
    [reflexivity | lia | reflexivity | exact Hfail
    | reflexivity | reflexivity | reflexivity].
Defined.

(** C3 as stated fails: the first attempt comes back with status code
    200, yet its body is not JSON, so the attempt counts as failed; the
    default bridge goes on to send all three POST calls and returns a
    result with status [error]. *)
Lemma forward_signal_first_200_unparseable :
  enabled stp_bridge = true ∧
  retry_attempts stp_bridge = 3%Z ∧
  returns_success_code
    (nth_attempt (Samples.world Samples.no_file Samples.html_200_then_500) 1)
  = true ∧
  ∃ result w',
    forward_signal stp_bridge Samples.signal
      (Samples.world Samples.no_file Samples.html_200_then_500)
    = (Return result, w') ∧
    result !! "status" = Some (VStr "error") ∧
    result !! "response" = None ∧
    length (posts w') = 3.
Proof.
  split; [reflexivity|]. split; [reflexivity|]. split; [reflexivity|].
  eexists _, _. split; [vm_compute; reflexivity|].
  repeat split; reflexivity.
Qed.

(** C8, as the code has it.  [forward_signal] always returns a result.
    A result with status [success] or [error] has a [signal_id] field,
    holding the signal's own [signal_id] when it has one and a freshly
    generated identifier otherwise; a result with status [skipped] has no
    [signal_id] field. *)
Theorem forward_signal_signal_id self signal w :
  ∃ result w',
    forward_signal self signal w = (Return result, w') ∧
    ((result !! "status" = Some (VStr "success") ∨
      result !! "status" = Some (VStr "error")) ∧
     result !! "signal_id" = Some (reported_signal_id signal w)
     ∨
     result !! "status" = Some (VStr "skipped") ∧
     result !! "signal_id" = None).
Proof.
  destruct (enabled self) eqn:Hen.
  - rewrite (forward_signal_enabled_run _ _ _ Hen).
    destruct (_send_with_retry self (transmission_payload signal w)
                (sending_world w)) as [[response|e] w2];
      eexists _, _; (split; [reflexivity|]); left; split; auto.
  - unfold forward_signal. rewrite Hen. simpl.
    eexists _, _. split; [reflexivity|]. right. split; reflexivity.
Qed.

(** C8 as stated fails: the result of a disabled bridge has status
    [skipped] and no [signal_id] field, although the signal has one. *)
Lemma forward_signal_skipped_without_signal_id :
  Samples.signal !! "signal_id" = Some (VStr "sig-1") ∧
  ∃ result w',
    forward_signal Samples.disabled_bridge Samples.signal
      (Samples.world Samples.no_file Samples.always_200)
    = (Return result, w') ∧
    result !! "status" = Some (VStr "skipped") ∧
    result !! "signal_id" = None.
Proof.
  split; [reflexivity|].
  eexists _, _. split; [vm_compute; reflexivity|]. split; reflexivity.
Qed.

(** C7.  [health_check] sends exactly one POST call and returns a result,
    whatever the endpoint does.  The status is [healthy] exactly when the
    response came back with status code 200 or 201 and [unhealthy]
    otherwise; when the call fails at the network level the result is
    [unhealthy], carries the error detail and has neither a [status_code]
    nor a [response_time] field. *)
Theorem health_check_single_post self w :
  ∃ result w' payload,
    health_check self w = (Return result, w') ∧
    posts w' = posts w ++ [post_of self payload] ∧
    (result !! "status" = Some (VStr "healthy") ∨
     result !! "status" = Some (VStr "unhealthy")) ∧
    (result !! "status" = Some (VStr "healthy")
     ↔ returns_success_code (nth_attempt w 1) = true) ∧
    (∀ e, nth_attempt w 1 = NetworkError e →
          result !! "status" = Some (VStr "unhealthy") ∧
          result !! "error" = Some (VStr (str e)) ∧
          result !! "status_code" = None ∧
          result !! "response_time" = None).
Proof.
  unfold health_check, nth_attempt, requests_post, try_except.
  cbv [mbind Py_bind mret Py_ret]. simpl. rewrite Nat.add_0_r.
  destruct (endpoint_src w (length (posts w))) as [e|r]; simpl.
  - eexists _, _, _. split; [reflexivity|]. split; [reflexivity|].
    split; [by right|]. split; [split; discriminate|].
    intros e' [= <-]. repeat split; reflexivity.
  - eexists _, _, _. split; [reflexivity|]. split; [reflexivity|].
    destruct (is_success_code (status_code r)).
    + split; [by left|]. split; [done|]. discriminate.
    + split; [by right|]. split; [split; discriminate|]. discriminate.
Qed.

(** C10.  An attempt whose response has a body that is not empty and not
    JSON is a failed attempt whatever its status code, 200 and 201
    included: the body is parsed before the status code is looked at.  The
    loop goes on to the next attempt, and the failure it records for this
    attempt is the parse error, not a status-code error. *)
Theorem send_attempt_unparseable_body self payload attempt w r c s e :
  endpoint_src w (length (posts w)) = Responded r →
  content r = String c s →
  json r = Raise e →
  send_attempt self payload attempt w
  = (Return (inr e), log_post (post_of self payload) w) ∧
  ∀ rest last,
    retry_loop self payload (attempt :: rest) last w
    = retry_loop self payload rest e (log_post (post_of self payload) w).
Proof.
  intros Hr Hc Hj.
  assert (Hrun : send_attempt self payload attempt w
                 = (Return (inr e), log_post (post_of self payload) w)).
  { apply send_attempt_failure. rewrite Hr. simpl. by rewrite Hc, Hj. }
  split; [exact Hrun|]. intros rest last. simpl.
  cbv [mbind Py_bind]. by rewrite Hrun.
Qed.

Lemma send_attempt_unparseable_body_witness :
  ∃ r e,
    endpoint_src (Samples.world Samples.no_file Samples.html_200_then_500)
      (length (posts (Samples.world Samples.no_file
                        Samples.html_200_then_500)))
    = Responded r ∧
    status_code r = 200%Z ∧
    content r = "<html>OK</html>" ∧
    json r = Raise e ∧
    send_attempt stp_bridge ∅ 0
      (Samples.world Samples.no_file Samples.html_200_then_500)
    = (Return (inr e),
       log_post (post_of stp_bridge ∅)
         (Samples.world Samples.no_file Samples.html_200_then_500)) ∧
    ∀ rest last,
      retry_loop stp_bridge ∅ (0%Z :: rest) last
        (Samples.world Samples.no_file Samples.html_200_then_500)
      = retry_loop stp_bridge ∅ rest e
          (log_post (post_of stp_bridge ∅)
             (Samples.world Samples.no_file Samples.html_200_then_500)).
Proof.
  eexists _, _. split; [reflexivity|]. split; [reflexivity|].
  split; [reflexivity|]. split; [reflexivity|].
  eapply (send_attempt_unparseable_body stp_bridge ∅ 0
            (Samples.world Samples.no_file Samples.html_200_then_500));
    reflexivity.
Defined.

(** *** Further properties *)

Lemma forward_signal_returns self signal w :
  ∃ result w', forward_signal self signal w = (Return result, w').
Proof.
  destruct (enabled self) eqn:Hen.
  - rewrite (forward_signal_enabled_run _ _ _ Hen).
    destruct (_send_with_retry _ _ _) as [[response|e] w2]; eauto.
  - unfold forward_signal. rewrite Hen. simpl. eauto.
Qed.

(** X2.  [batch_forward_signals] returns one result per signal, in the
    order of the signals, each of them the result of a [forward_signal]
    call on that signal; no signal makes the batch raise or stop. *)
Theorem batch_forward_signals_in_order self signals : ∀ w,
  ∃ results w',
    batch_forward_signals self signals w = (Return results, w') ∧
    length results = length signals ∧
    Forall2 (λ signal result,
               ∃ wi wi', forward_signal self signal wi = (Return result, wi'))
            signals results.
Proof.
  induction signals as [|signal rest IH]; intros w; simpl.
  - eexists [], _. split; [reflexivity|]. split; [done|]. constructor.
  - destruct (forward_signal_returns self signal w) as (result & w1 & Hrun).
    destruct (IH w1) as (results & w' & Hrest & Hlen & Hall).
    cbv [mbind Py_bind]. rewrite Hrun, Hrest.
    eexists (_ :: _), _. split; [reflexivity|]. split; [simpl; lia|].
    constructor; eauto.
Qed.

(** *** The retry loop in general *)

Lemma recorded_failure_None o :
  recorded_failure o = None →
  ∃ r body, o = Responded r ∧ is_success_code (status_code r) = true ∧
            parsed_body r = Some body.
Proof.
  destruct o as [e|r]; simpl; [discriminate|].
  destruct (content r) eqn:Hc, (json r) eqn:Hj; try discriminate;
    destruct (is_success_code (status_code r)) eqn:Hcode; try discriminate;
    intros _; exists r; eexists; (split; [reflexivity|]);
    (split; [exact Hcode|]); unfold parsed_body; rewrite Hc, ?Hj; reflexivity.
Qed.

(** The retry loop either stops at the first attempt that records no
    failure, or goes through every attempt and raises. *)
Lemma retry_loop_run self payload attempts : ∀ last w,
  (∃ k attempt r body,
     attempts !! k = Some attempt ∧
     (∀ j, j < k →
           recorded_failure (endpoint_src w (length (posts w) + j)) ≠ None) ∧
     recorded_failure (endpoint_src w (length (posts w) + k)) = None ∧
     endpoint_src w (length (posts w) + k) = Responded r ∧
     parsed_body r = Some body ∧
     retry_loop self payload attempts last w
     = (Return (VDict {[ "status_code" := VInt (status_code r);
                         "response" := body;
                         "attempt" := VInt (attempt + 1) ]}),
        after_posts (S k) (post_of self payload) w))
  ∨
  ((∀ j, j < length attempts →
         recorded_failure (endpoint_src w (length (posts w) + j)) ≠ None) ∧
   ∃ e, retry_loop self payload attempts last w
        = (Raise e, after_posts (length attempts) (post_of self payload) w)).
Proof.
  induction attempts as [|attempt rest IH]; intros last w; simpl.
  - right. split; [intros j Hj; lia|]. exists last. by rewrite after_posts_0.
  - destruct (recorded_failure (endpoint_src w (length (posts w))))
      as [e1|] eqn:He1.
    + cbv [mbind Py_bind]. rewrite (send_attempt_failure _ _ _ _ _ He1).
      destruct (IH e1 (log_post (post_of self payload) w))
        as [(k & a & r & body & Hk & Hbefore & Hnone & Hr & Hbody & Hrun)
           |[Hall (e & Hrun)]]; simpl in *; rewrite length_app in *; simpl in *.
      * left. exists (S k), a, r, body. split; [done|].
        replace (length (posts w) + S k) with (length (posts w) + 1 + k) by lia.
        split; [|by rewrite Hrun, after_posts_S].
        intros [|j] Hj; [by rewrite Nat.add_0_r, He1|].
        replace (length (posts w) + S j) with (length (posts w) + 1 + j) by lia.
        apply Hbefore. lia.
      * right. split; [|exists e; by rewrite Hrun, after_posts_S].
        intros [|j] Hj; [by rewrite Nat.add_0_r, He1|].
        replace (length (posts w) + S j) with (length (posts w) + 1 + j) by lia.
        apply Hall. lia.
    + destruct (recorded_failure_None _ He1) as (r & body & Hr & Hcode & Hbody).
      left. exists 0, attempt, r, body. rewrite Nat.add_0_r.
      split; [done|]. split; [intros j Hj; lia|]. split; [done|].
      split; [done|]. split; [done|].
      cbv [mbind Py_bind].
      rewrite (send_attempt_success _ _ _ _ _ _ Hr Hcode Hbody).
      by rewrite <- after_posts_S, after_posts_0.
Qed.

(** Every call returns, sends at most [retry_attempts] POST calls and
    changes nothing but the POST log, the identifier count and the
    clock. *)
Lemma forward_signal_run self signal w :
  ∃ result w' k,
    forward_signal self signal w = (Return result, w') ∧
    forward_effects self signal w w' k ∧
    k ≤ Z.to_nat (retry_attempts self) ∧
    (enabled self = false → k = 0) ∧
    (enabled self = true → (1 ≤ retry_attempts self)%Z → 1 ≤ k).
Proof.
  destruct (enabled self) eqn:Hen.
  - rewrite (forward_signal_enabled_run _ _ _ Hen). unfold _send_with_retry.
    destruct (retry_loop_run self (transmission_payload signal w)
                (seqZ 0 (retry_attempts self)) (Exception_ "Unknown error")
                (sending_world w))
      as [(k & a & r & body & Hk & _ & _ & _ & _ & Hrun)|[_ (e & Hrun)]];
      rewrite Hrun.
    + apply lookup_lt_Some in Hk. rewrite length_seqZ in Hk.
      eexists _, _, (S k). split; [reflexivity|].
      split; [unfold forward_effects; rewrite Hen; simpl; by repeat split|].
      split; [lia|]. split; [done|]. intros; lia.
    + rewrite length_seqZ.
      eexists _, _, _. split; [reflexivity|].
      split; [unfold forward_effects; rewrite Hen; simpl; by repeat split|].
      split; [lia|]. split; [done|]. intros; lia.
  - unfold forward_signal. rewrite Hen. simpl.
    eexists _, _, 0. split; [reflexivity|].
    split; [unfold forward_effects; rewrite Hen; simpl;
            rewrite app_nil_r; by repeat split|].
    split; [lia|]. split; [done|]. discriminate.
Qed.

Lemma transmission_payload_ext signal w1 w2 :
  uuid4_src w1 = uuid4_src w2 → uuid4_calls w1 = uuid4_calls w2 →
  utcnow_src w1 = utcnow_src w2 → utcnow_calls w1 = utcnow_calls w2 →
  transmission_payload signal w1 = transmission_payload signal w2.
Proof. unfold transmission_payload. by intros -> -> -> ->. Qed.

Lemma batch_forward_signals_run self signals : ∀ w,
  enabled self = true →
  ∃ results w' ks,
    batch_forward_signals self signals w = (Return results, w') ∧
    length ks = length signals ∧
    Forall (λ k, k ≤ Z.to_nat (retry_attempts self)) ks ∧
    posts w'
    = posts w
      ++ concat (zip_with (λ k payload, replicate k (post_of self payload))
                          ks (batch_payloads signals w)) ∧
    uuid4_src w' = uuid4_src w ∧
    uuid4_calls w' = 2 * length signals + uuid4_calls w ∧
    utcnow_src w' = utcnow_src w ∧
    utcnow_calls w' = 2 * length signals + utcnow_calls w ∧
    karma_events_col w' = karma_events_col w.
Proof.
  induction signals as [|signal rest IH]; intros w Hen; simpl.
  - eexists [], w, []. cbv [mret Py_ret]. rewrite app_nil_r. by repeat split.
  - destruct (forward_signal_run self signal w)
      as (result & w1 & k & Hrun & Heff & Hle & _).
    destruct Heff as (Hposts & Hu & Ht & Hus & Hts & _ & _ & _ & _ & Hcol).
    rewrite Hen in Hu, Ht.
    destruct (IH w1 Hen)
      as (results & w' & ks & Hrest & Hlen & Hall & Hposts'
          & Hus' & Hu' & Hts' & Ht' & Hcol').
    cbv [mbind Py_bind mret Py_ret]. rewrite Hrun, Hrest.
    eexists _, _, (k :: ks). split; [reflexivity|].
    split; [simpl; lia|]. split; [by constructor|].
    split; [|repeat split; try congruence; lia].
    rewrite Hposts', Hposts, <- app_assoc. f_equal.
    unfold batch_payloads. rewrite imap_cons. simpl.
    rewrite (transmission_payload_ext signal (after_forwarding 0 w) w)
      by done.
    f_equal. f_equal. f_equal. apply imap_ext. intros i s _. simpl.
    apply transmission_payload_ext; simpl; try congruence; lia.
Qed.

Lemma length_batch_posts self n ks : ∀ payloads,
  Forall (λ k, k ≤ n) ks →
  length (concat (zip_with (λ k payload, replicate k (post_of self payload))
                           ks payloads))
  ≤ length payloads * n.
Proof.
  induction ks as [|k ks IH]; intros [|p payloads] Hall; simpl; try lia.
  apply Forall_cons in Hall as [Hk Hall].
  rewrite length_app, length_replicate. specialize (IH payloads Hall). lia.
Qed.

(** *** Bounded retries, effects and result shapes *)

(** X10.  Whatever the endpoint does, [forward_signal] returns, and the
    POST calls it adds are [k] copies of one call, to the configured
    endpoint with the configured timeout, whose payload embeds the signal
    as it is under the fixed source tag; [k] is at most [retry_attempts],
    zero for a disabled bridge and at least one for an enabled bridge with
    a positive [retry_attempts].  The event collection is untouched; an
    enabled bridge takes two identifiers and two clock readings, a
    disabled one no identifier and one clock reading. *)
Theorem forward_signal_bounded_effects self signal w :
  ∃ result w' k,
    forward_signal self signal w = (Return result, w') ∧
    posts w'
    = posts w ++ replicate k (post_of self (transmission_payload signal w)) ∧
    k ≤ Z.to_nat (retry_attempts self) ∧
    (enabled self = false → k = 0) ∧
    (enabled self = true → (1 ≤ retry_attempts self)%Z → 1 ≤ k) ∧
    transmission_payload signal w !! "signal" = Some (VDict signal) ∧
    transmission_payload signal w !! "source"
    = Some (VStr "karmachain_feedback_engine") ∧
    karma_events_col w' = karma_events_col w ∧
    insert_calls w' = insert_calls w ∧
    uuid4_calls w' = (if enabled self then 2 else 0) + uuid4_calls w ∧
    utcnow_calls w' = (if enabled self then 2 else 1) + utcnow_calls w.
Proof.
  destruct (forward_signal_run self signal w)
    as (result & w' & k & Hrun & Heff & Hle & Hoff & Hon).
  destruct Heff as (Hposts & Hu & Ht & _ & _ & _ & _ & _ & Hic & Hcol).
  exists result, w', k. repeat split; try done.
Qed.

(** X11.  For an enabled bridge the result is [success] or [error], and
    it is [success] exactly when one of the [retry_attempts] attempts
    records no failure (status code 200 or 201 and a body that is empty or
    parses).  The first such attempt is the last one sent, and its number
    is the attempt number reported. *)
Theorem forward_signal_success_iff self signal w :
  enabled self = true →
  ∃ result w',
    forward_signal self signal w = (Return result, w') ∧
    (result !! "status" = Some (VStr "success")
     ∨ result !! "status" = Some (VStr "error")) ∧
    (result !! "status" = Some (VStr "success")
     ↔ ∃ k, 1 ≤ k ≤ Z.to_nat (retry_attempts self) ∧
            recorded_failure (nth_attempt w k) = None) ∧
    (∀ k, 1 ≤ k ≤ Z.to_nat (retry_attempts self) →
          recorded_failure (nth_attempt w k) = None →
          (∀ j, 1 ≤ j < k → recorded_failure (nth_attempt w j) ≠ None) →
          length (posts w') = length (posts w) + k ∧
          ∃ response, result !! "response" = Some (VDict response) ∧
                      response !! "attempt" = Some (VInt (Z.of_nat k))).
Proof.
  intros Hen. rewrite (forward_signal_enabled_run _ _ _ Hen).
  unfold _send_with_retry, nth_attempt.
  destruct (retry_loop_run self (transmission_payload signal w)
              (seqZ 0 (retry_attempts self)) (Exception_ "Unknown error")
              (sending_world w))
    as [(k & a & r & body & Hk & Hbefore & Hnone & Hr & Hbody & Hrun)
       |[Hall (e & Hrun)]]; rewrite Hrun; simpl in *.
  - apply lookup_seqZ in Hk as [-> Hk].
    eexists _, _. split; [reflexivity|]. split; [by left|]. split.
    + split; [intros _|done]. exists (S k). split; [lia|done].
    + intros k' Hk' Hnone' Hbefore'.
      assert (k' = S k) as ->.
      { destruct (Nat.lt_trichotomy (pred k') k) as [Hlt|[Heq|Hgt]]; [|lia|].
        - by apply Hbefore in Hlt.
        - exfalso. apply (Hbefore' (S k)); [lia|done]. }
      split; [simpl; rewrite length_app; simpl; rewrite length_replicate; lia|].
      eexists. split; [reflexivity|].
      replace (0 + Z.of_nat k + 1)%Z with (Z.of_nat (S k)) by lia.
      reflexivity.
  - rewrite length_seqZ in *.
    eexists _, _. split; [reflexivity|]. split; [by right|]. split.
    + split; [discriminate|]. intros (k & Hk & Hnone).
      exfalso. apply (Hall (pred k)); [lia|done].
    + intros k Hk Hnone. exfalso. apply (Hall (pred k)); [lia|done].
Qed.

Lemma forward_signal_success_iff_witness :
  enabled stp_bridge = true ∧
  ∃ result w',
    forward_signal stp_bridge Samples.signal
      (Samples.world Samples.no_file Samples.fails_twice_then_201)
    = (Return result, w') ∧
    (result !! "status" = Some (VStr "success")
     ∨ result !! "status" = Some (VStr "error")) ∧
    (result !! "status" = Some (VStr "success")
     ↔ ∃ k, 1 ≤ k ≤ Z.to_nat (retry_attempts stp_bridge) ∧
            recorded_failure
              (nth_attempt
                 (Samples.world Samples.no_file Samples.fails_twice_then_201)
                 k) = None) ∧
    (∀ k, 1 ≤ k ≤ Z.to_nat (retry_attempts stp_bridge) →
          recorded_failure
            (nth_attempt
               (Samples.world Samples.no_file Samples.fails_twice_then_201) k)
          = None →
          (∀ j, 1 ≤ j < k →
                recorded_failure
                  (nth_attempt
                     (Samples.world Samples.no_file
                        Samples.fails_twice_then_201) j) ≠ None) →
          length (posts w')
          = length (posts (Samples.world Samples.no_file
                             Samples.fails_twice_then_201)) + k ∧
          ∃ response, result !! "response" = Some (VDict response) ∧
                      response !! "attempt" = Some (VInt (Z.of_nat k))).
Proof.
  split; [reflexivity|].
  apply (forward_signal_success_iff stp_bridge Samples.signal
           (Samples.world Samples.no_file Samples.fails_twice_then_201)).
  reflexivity.
Defined.

(** X12.  The three shapes of a result: a [success] result has exactly the
    keys [status], [signal_id], [transmission_id], [response] and
    [timestamp]; an [error] result exactly [status], [signal_id], [error]
    and [timestamp], so it carries no [transmission_id] although the
    payload went out; a [skipped] result exactly [status], [message] and
    [timestamp]. *)
Theorem forward_signal_result_keys self signal w :
  ∃ result w',
    forward_signal self signal w = (Return result, w') ∧
    (result !! "status" = Some (VStr "success") ∧
     dom result = {[ "status"; "signal_id"; "transmission_id"; "response";
                     "timestamp" ]}
     ∨
     result !! "status" = Some (VStr "error") ∧
     dom result = {[ "status"; "signal_id"; "error"; "timestamp" ]}
     ∨
     result !! "status" = Some (VStr "skipped") ∧
     dom result = {[ "status"; "message"; "timestamp" ]}).
Proof.
  destruct (enabled self) eqn:Hen.
  - rewrite (forward_signal_enabled_run _ _ _ Hen).
    destruct (_send_with_retry _ _ _) as [[response|e] w2];
      eexists _, _; (split; [reflexivity|]).
    + left. split; [reflexivity|]. rewrite !dom_insert_L, dom_singleton_L.
      set_solver.
    + right; left. split; [reflexivity|].
      rewrite !dom_insert_L, dom_singleton_L. set_solver.
  - unfold forward_signal. rewrite Hen. simpl.
    eexists _, _. split; [reflexivity|]. right; right.
    split; [reflexivity|]. rewrite !dom_insert_L, dom_singleton_L. set_solver.
Qed.

(** *** Batches, the global instance and the health check *)

(** X13.  An enabled bridge builds one payload per signal of a batch and
    sends each at most [retry_attempts] times, in the order of the
    signals, so a batch adds at most [len(signals) * retry_attempts] POST
    calls.  Each payload embeds its own signal, and when the identifier
    source never repeats itself no two payloads of the batch share a
    [transmission_id]. *)
Theorem batch_forward_signals_transmissions self signals w :
  enabled self = true →
  (∀ a b, uuid4_src w a = uuid4_src w b → a = b) →
  ∃ results w' ks,
    batch_forward_signals self signals w = (Return results, w') ∧
    length ks = length signals ∧
    Forall (λ k, k ≤ Z.to_nat (retry_attempts self)) ks ∧
    posts w'
    = posts w
      ++ concat (zip_with (λ k payload, replicate k (post_of self payload))
                          ks (batch_payloads signals w)) ∧
    length (posts w')
    ≤ length (posts w) + length signals * Z.to_nat (retry_attempts self) ∧
    (∀ i signal, signals !! i = Some signal →
       ∃ payload, batch_payloads signals w !! i = Some payload ∧
                  payload !! "signal" = Some (VDict signal)) ∧
    NoDup ((λ payload, payload !! "transmission_id")
             <$> batch_payloads signals w).
Proof.
  intros Hen Hinj.
  destruct (batch_forward_signals_run self signals w Hen)
    as (results & w' & ks & Hrun & Hlen & Hall & Hposts & _).
  exists results, w', ks. split; [done|]. split; [done|]. split; [done|].
  split; [done|]. split.
  { rewrite Hposts, length_app.
    pose proof (length_batch_posts self _ ks (batch_payloads signals w) Hall).
    unfold batch_payloads in *. rewrite length_imap in *. lia. }
  split.
  { intros i signal Hi. unfold batch_payloads.
    rewrite list_lookup_imap, Hi. simpl. eauto. }
  apply NoDup_alt. intros i j x Hi Hj. unfold batch_payloads in *.
  rewrite list_lookup_fmap, list_lookup_imap in Hi, Hj.
  destruct (signals !! i) as [si|]; [|discriminate].
  destruct (signals !! j) as [sj|]; [|discriminate].
  simpl in Hi, Hj. rewrite <- Hi in Hj.
  unfold transmission_payload in Hj. rewrite !lookup_insert_eq in Hj.
  simpl in Hj. injection Hj as Hj. apply Hinj in Hj. lia.
Qed.

Lemma batch_forward_signals_transmissions_witness :
  enabled stp_bridge = true ∧
  (∀ a b,
     uuid4_src (Samples.world Samples.no_file Samples.always_500) a
     = uuid4_src (Samples.world Samples.no_file Samples.always_500) b →
     a = b) ∧
  ∃ results w' ks,
    batch_forward_signals stp_bridge [Samples.signal; ∅]
      (Samples.world Samples.no_file Samples.always_500)
    = (Return results, w') ∧
    length ks = length [Samples.signal; (∅ : gmap string value)] ∧
    Forall (λ k, k ≤ Z.to_nat (retry_attempts stp_bridge)) ks ∧
    posts w'
    = posts (Samples.world Samples.no_file Samples.always_500)
      ++ concat (zip_with
                   (λ k payload, replicate k (post_of stp_bridge payload))
                   ks
                   (batch_payloads [Samples.signal; ∅]
                      (Samples.world Samples.no_file Samples.always_500))) ∧
    length (posts w')
    ≤ length (posts (Samples.world Samples.no_file Samples.always_500))
      + length [Samples.signal; (∅ : gmap string value)]
        * Z.to_nat (retry_attempts stp_bridge) ∧
    (∀ i signal, [Samples.signal; ∅] !! i = Some signal →
       ∃ payload,
         batch_payloads [Samples.signal; ∅]
           (Samples.world Samples.no_file Samples.always_500) !! i
         = Some payload ∧
         payload !! "signal" = Some (VDict signal)) ∧
    NoDup ((λ payload, payload !! "transmission_id")
             <$> batch_payloads [Samples.signal; ∅]
                   (Samples.world Samples.no_file Samples.always_500)).
Proof.
  split; [reflexivity|].
  split; [apply normalization_facts.sample_uuid4_src_inj|].
  apply (batch_forward_signals_transmissions stp_bridge [Samples.signal; ∅]
           (Samples.world Samples.no_file Samples.always_500)).
  - reflexivity.
  - apply normalization_facts.sample_uuid4_src_inj.
Defined.

(** X14.  A disabled bridge answers a batch with one [skipped] result per
    signal, sends nothing and generates no identifier. *)
Theorem batch_forward_signals_disabled self signals : ∀ w,
  enabled self = false →
  ∃ results w',
    batch_forward_signals self signals w = (Return results, w') ∧
    posts w' = posts w ∧
    uuid4_calls w' = uuid4_calls w ∧
    length results = length signals ∧
    Forall (λ result, result !! "status" = Some (VStr "skipped")) results.
Proof.
  induction signals as [|signal rest IH]; intros w Hen; simpl.
  - eexists [], w. by repeat split.
  - cbv [mbind Py_bind mret Py_ret]. unfold forward_signal. rewrite Hen. simpl.
    destruct (IH (utcnow w).2 Hen)
      as (results & w' & Hrest & Hposts & Hu & Hlen & Hall).
    simpl in Hrest. rewrite Hrest.
    eexists (_ :: results), w'. split; [reflexivity|].
    split; [done|]. split; [done|]. split; [simpl; lia|].
    constructor; [reflexivity|done].
Qed.

Lemma batch_forward_signals_disabled_witness :
  enabled Samples.disabled_bridge = false ∧
  ∃ results w',
    batch_forward_signals Samples.disabled_bridge [Samples.signal; ∅]
      (Samples.world Samples.no_file Samples.always_200)
    = (Return results, w') ∧
    posts w' = posts (Samples.world Samples.no_file Samples.always_200) ∧
    uuid4_calls w'
    = uuid4_calls (Samples.world Samples.no_file Samples.always_200) ∧
    length results = length [Samples.signal; (∅ : gmap string value)] ∧
    Forall (λ result, result !! "status" = Some (VStr "skipped")) results.
Proof.
  split; [reflexivity|].
  apply (batch_forward_signals_disabled Samples.disabled_bridge
           [Samples.signal; ∅]
           (Samples.world Samples.no_file Samples.always_200)).
  reflexivity.
Defined.

(** X15.  The convenience function [forward_karmic_signal] goes through
    the global instance, which is built with no configuration: it sends
    at least one and at most three POST calls, all to
    [http://localhost:8001/api/v1/insightflow/receive] with a timeout of
    10 and the payload of the call. *)
Theorem forward_karmic_signal_default signal w :
  ∃ result w' k,
    forward_karmic_signal signal w = (Return result, w') ∧
    1 ≤ k ≤ 3 ∧
    posts w'
    = posts w
      ++ replicate k
           {| post_url := "http://localhost:8001/api/v1/insightflow/receive";
              post_json := VDict (transmission_payload signal w);
              post_timeout := 10 |}.
Proof.
  unfold forward_karmic_signal.
  destruct (forward_signal_run stp_bridge signal w)
    as (result & w' & k & Hrun & Heff & Hle & _ & Hon).
  destruct Heff as (Hposts & _).
  exists result, w', k. split; [done|]. split; [|done].
  split; [by apply Hon|exact Hle].
Qed.

(** X16.  What [health_check] sends and reports.  Its one POST carries a
    payload with exactly the keys [transmission_id], [source], [type] and
    [timestamp], of type [health_check] and with a fresh identifier; the
    result names the endpoint, and when a response came back it reports
    the status code and the elapsed time and has no [error] key.  The
    check takes one identifier and two clock readings and leaves the
    event collection alone. *)
Theorem health_check_report self w :
  ∃ result w' payload,
    health_check self w = (Return result, w') ∧
    posts w' = posts w ++ [post_of self payload] ∧
    dom payload = {[ "transmission_id"; "source"; "type"; "timestamp" ]} ∧
    payload !! "type" = Some (VStr "health_check") ∧
    payload !! "transmission_id" = Some (VStr (uuid4_src w (uuid4_calls w))) ∧
    result !! "endpoint" = Some (VStr (insightflow_endpoint self)) ∧
    (∀ r, nth_attempt w 1 = Responded r →
          result !! "status_code" = Some (VInt (status_code r)) ∧
          result !! "response_time"
          = Some (VFloat (elapsed_total_seconds r)) ∧
          result !! "error" = None) ∧
    uuid4_calls w' = 1 + uuid4_calls w ∧
    utcnow_calls w' = 2 + utcnow_calls w ∧
    karma_events_col w' = karma_events_col w.
Proof.
  unfold health_check, nth_attempt, requests_post, try_except.
  cbv [mbind Py_bind mret Py_ret]. simpl. rewrite Nat.add_0_r.
  destruct (endpoint_src w (length (posts w))) as [e|r]; simpl;
    eexists _, _, _; (split; [reflexivity|]); (split; [reflexivity|]);
    (split; [rewrite !dom_insert_L, dom_singleton_L; set_solver|]);
    (split; [reflexivity|]); (split; [reflexivity|]); (split; [reflexivity|]);
    (split; [|done]).
  - discriminate.
  - intros r' [= <-]. repeat split; reflexivity.
Qed.

(** X17.  The health check looks at the status code only, the retry loop
    also parses the body.  Against an endpoint that keeps answering 200
    or 201 with a body that is not JSON, [health_check] reports [healthy]
    while [forward_signal] on an enabled bridge uses up all its
    [retry_attempts] attempts and returns an [error] result. *)
Theorem healthy_yet_forward_fails self signal w :
  enabled self = true →
  (1 ≤ retry_attempts self)%Z →
  (∀ k, 1 ≤ k ≤ Z.to_nat (retry_attempts self) →
        ∃ r, nth_attempt w k = Responded r ∧
             is_success_code (status_code r) = true ∧
             parsed_body r = None) →
  (∃ report wh,
     health_check self w = (Return report, wh) ∧
     report !! "status" = Some (VStr "healthy")) ∧
  (∃ result w',
     forward_signal self signal w = (Return result, w') ∧
     result !! "status" = Some (VStr "error") ∧
     length (posts w') = length (posts w) + Z.to_nat (retry_attempts self)).
Proof.
  intros Hen Hn Hbad. split.
  - destruct (Hbad 1) as (r & Hr & Hcode & _); [lia|].
    unfold health_check, requests_post, try_except.
    unfold nth_attempt in Hr. simpl in Hr. rewrite Nat.add_0_r in Hr.
    cbv [mbind Py_bind mret Py_ret]. simpl. rewrite Hr. simpl. rewrite Hcode.
    eexists _, _. split; reflexivity.
  - rewrite (forward_signal_enabled_run _ _ _ Hen). unfold _send_with_retry.
    destruct (retry_loop_run self (transmission_payload signal w)
                (seqZ 0 (retry_attempts self)) (Exception_ "Unknown error")
                (sending_world w))
      as [(k & a & r & body & Hk & _ & _ & Hr & Hbody & _)|[_ (e & Hrun)]].
    + exfalso. apply lookup_lt_Some in Hk. rewrite length_seqZ in Hk.
      destruct (Hbad (S k)) as (r' & Hr' & _ & Hnone); [lia|].
      unfold nth_attempt in Hr'. simpl in *. congruence.
    + rewrite Hrun, length_seqZ. eexists _, _. split; [reflexivity|].
      split; [reflexivity|]. simpl. by rewrite length_app, length_replicate.
Qed.

Lemma healthy_yet_forward_fails_witness :
  enabled stp_bridge = true ∧
  (1 ≤ retry_attempts stp_bridge)%Z ∧
  (∀ k, 1 ≤ k ≤ Z.to_nat (retry_attempts stp_bridge) →
        ∃ r,
          nth_attempt (Samples.world Samples.no_file Samples.always_html_200) k
          = Responded r ∧
          is_success_code (status_code r) = true ∧
          parsed_body r = None) ∧
  (∃ report wh,
     health_check stp_bridge
       (Samples.world Samples.no_file Samples.always_html_200)
     = (Return report, wh) ∧
     report !! "status" = Some (VStr "healthy")) ∧
  (∃ result w',
     forward_signal stp_bridge Samples.signal
       (Samples.world Samples.no_file Samples.always_html_200)
     = (Return result, w') ∧
     result !! "status" = Some (VStr "error") ∧
     length (posts w')
     = length (posts (Samples.world Samples.no_file Samples.always_html_200))
       + Z.to_nat (retry_attempts stp_bridge)).
Proof.
  assert (Hbad : ∀ k, 1 ≤ k ≤ Z.to_nat (retry_attempts stp_bridge) →
    ∃ r,
      nth_attempt (Samples.world Samples.no_file Samples.always_html_200) k
      = Responded r ∧
      is_success_code (status_code r) = true ∧
      parsed_body r = None).
  { intros k Hk. eexists. repeat split; reflexivity. }
  split; [reflexivity|]. split; [vm_compute; discriminate|].
  split; [exact Hbad|].
  apply (healthy_yet_forward_fails stp_bridge Samples.signal
           (Samples.world Samples.no_file Samples.always_html_200)).
  - reflexivity.
  - vm_compute. discriminate.
  - exact Hbad.
Defined.

(** *** The documented scenarios *)

(** An endpoint that answers 200 on the first attempt: success, attempt 1,
    one call. *)
Example forward_signal_first_attempt_200 :
  match forward_signal stp_bridge Samples.signal
          (Samples.world Samples.no_file Samples.always_200) with
  | (Return result, w') =>
      (result !! "status", result !! "signal_id", result !! "response",
       length (posts w'))
  | (Raise _, _) => (None, None, None, 0)
  end
  = (Some (VStr "success"), Some (VStr "sig-1"),
     Some (VDict {[ "status_code" := VInt 200; "response" := VDict ∅;
                    "attempt" := VInt 1 ]}),
     1).
Proof. vm_compute. reflexivity. Qed.

(** An endpoint that fails twice and then answers 201: success, attempt 3,
    three calls. *)
Example forward_signal_third_attempt_201 :
  match forward_signal stp_bridge ∅
          (Samples.world Samples.no_file Samples.fails_twice_then_201) with
  | (Return result, w') =>
      (result !! "status", result !! "signal_id", result !! "response",
       length (posts w'))
  | (Raise _, _) => (None, None, None, 0)
  end
  = (Some (VStr "success"), Some (VStr "uuid-0"),
     Some (VDict {[ "status_code" := VInt 201;
                    "response" := VList [VBool true; VInt 7];
                    "attempt" := VInt 3 ]}),
     3).
Proof. vm_compute. reflexivity. Qed.

(** An endpoint that always answers 500: three calls, then an error. *)
Example forward_signal_always_500 :
  match forward_signal stp_bridge Samples.signal
          (Samples.world Samples.no_file Samples.always_500) with
  | (Return result, w') =>
      (result !! "status", result !! "error", length (posts w'))
  | (Raise _, _) => (None, None, 0)
  end
  = (Some (VStr "error"),
     Some (VStr "500: InsightFlow returned status 500"), 3).
Proof. vm_compute. reflexivity. Qed.

(** An endpoint that cannot be reached: unhealthy, with an error detail
    and no status code. *)
Example health_check_unreachable :
  match health_check stp_bridge
          (Samples.world Samples.no_file Samples.unreachable) with
  | (Return result, w') =>
      (result !! "status", result !! "error", result !! "status_code",
       length (posts w'))
  | (Raise _, _) => (None, None, None, 0)
  end
  = (Some (VStr "unhealthy"), Some (VStr "Connection refused"), None, 1).
Proof. vm_compute. reflexivity. Qed.

End stp_bridge_facts.
